(** * Paymenter Python backend: the extension registry and its extensions

    A shallow embedding of
      - app/extensions/base.py      (BaseExtension and the three contracts),
      - app/extensions/loader.py    (ExtensionManager),
      - app/api/v1/endpoints/extensions.py (the query endpoints),
      - app/extensions/servers/Proxmox/proxmox.py,
      - app/extensions/gateways/Stripe/stripe.py,
      - app/extensions/others/DiscordNotifications/discordnotifications.py,
    followed by the properties of the registry contract.

    Conventions.  A Python [str] is a [string] holding its UTF-8 bytes, so
    [encode('utf-8')] is the identity; [lower]/[upper] act on the ASCII
    letters only.  A Python dict is an association list in insertion order
    with unique keys.  Dicts that are shared and may be mutated live in a
    heap and are passed by address.  Raising is a result in an error monad
    that keeps the state reached when the exception was raised. *)

From Stdlib Require Import ZArith String Ascii List Bool Lia.
From stdpp Require Import base option list strings pretty.
Import ListNotations.

Local Open Scope string_scope.
Local Open Scope Z_scope.

(** ** Python runtime *)

Module Py.

(** The exception classes that occur in the modelled code, or that its
  [except] clauses tell apart. *)
Inductive exn_class :=
| BaseException | KeyboardInterrupt | Exception
| ImportError | ModuleNotFoundError | AttributeError | KeyError
| TypeError | ValueError | UnicodeDecodeError | JSONDecodeError
| RuntimeError | NotImplementedError | OSError | SyntaxError
| TransportError.

#[global] Instance exn_class_eq_dec : EqDecision exn_class.
Proof. solve_decision. Defined.

(** The method resolution order of an exception class, itself first. *)
Definition mro (c : exn_class) : list exn_class :=
match c with
| BaseException => [BaseException]
| KeyboardInterrupt => [KeyboardInterrupt; BaseException]
| Exception => [Exception; BaseException]
| ImportError => [ImportError; Exception; BaseException]
| ModuleNotFoundError =>
    [ModuleNotFoundError; ImportError; Exception; BaseException]
| AttributeError => [AttributeError; Exception; BaseException]
| KeyError => [KeyError; Exception; BaseException]
| TypeError => [TypeError; Exception; BaseException]
| ValueError => [ValueError; Exception; BaseException]
| UnicodeDecodeError =>
    [UnicodeDecodeError; ValueError; Exception; BaseException]
| JSONDecodeError => [JSONDecodeError; ValueError; Exception; BaseException]
| RuntimeError => [RuntimeError; Exception; BaseException]
| NotImplementedError =>
    [NotImplementedError; RuntimeError; Exception; BaseException]
| OSError => [OSError; Exception; BaseException]
| SyntaxError => [SyntaxError; Exception; BaseException]
| TransportError => [TransportError; Exception; BaseException]
end.

Definition issubclass (c d : exn_class) : bool := bool_decide (d ∈ mro c).

(** A raised exception: an instance of a built-in class with its message,
  or FastAPI's [HTTPException] with its status code and detail. *)
Inductive exn :=
| Raise (c : exn_class) (msg : string)
| HTTPException (status_code : Z) (detail : string).

Definition isinstance (e : exn) (d : exn_class) : bool :=
match e with
| Raise c _ => issubclass c d
| HTTPException _ _ => issubclass Exception d
end.

(** [type(e) is d]: the exception is an instance of exactly that class. *)
Definition exact_class (e : exn) (d : exn_class) : bool :=
match e with
| Raise c _ => bool_decide (c = d)
| HTTPException _ _ => false
end.

Inductive result (A : Type) :=
| Ok (a : A)
| Err (e : exn).
Arguments Ok {A} a.
Arguments Err {A} e.

(** Values: what configuration mappings, JSON documents and results hold. *)
#[warnings="-register-all"]
Inductive value :=
| VNone
| VBool (b : bool)
| VInt (n : Z)
| VStr (s : string)
| VList (l : list value)
| VDict (d : list (string * value)).

(** Truth value testing ([if x:], [not x], [x or y]). *)
Definition truthy (v : value) : bool :=
match v with
| VNone => false
| VBool b => b
| VInt n => negb (n =? 0)
| VStr s => negb (String.eqb s "")
| VList l => match l with [] => false | _ => true end
| VDict d => match d with [] => false | _ => true end
end.

(** [str.lower()] and [str.upper()]: the ASCII letters change case and
    every other byte is kept, which is what Python does on ASCII text.
    Cased letters outside ASCII are outside this model. *)
Definition lower_char (c : ascii) : ascii :=
let n := nat_of_ascii c in
if ((65 <=? n) && (n <=? 90))%nat then ascii_of_nat (n + 32) else c.

Definition upper_char (c : ascii) : ascii :=
let n := nat_of_ascii c in
if ((97 <=? n) && (n <=? 122))%nat then ascii_of_nat (n - 32) else c.

Fixpoint lower (s : string) : string :=
match s with
| EmptyString => EmptyString
| String c s' => String (lower_char c) (lower s')
end.

Fixpoint upper (s : string) : string :=
match s with
| EmptyString => EmptyString
| String c s' => String (upper_char c) (upper s')
end.

(** [s.split(sep)] for a one-character separator: never empty, the pieces
  between the separators. *)
Fixpoint split (sep : ascii) (s : string) : list string :=
match s with
| EmptyString => [EmptyString]
| String c s' =>
    if Ascii.eqb c sep then EmptyString :: split sep s'
    else match split sep s' with
         | [] => [String c EmptyString]
         | p :: ps => String c p :: ps
         end
end.

(** *** Dicts: insertion-ordered association lists *)

Section Dict.
Context {V : Type}.

Fixpoint dict_get (d : list (string * V)) (k : string) : option V :=
  match d with
  | [] => None
  | (k', v) :: d' => if String.eqb k' k then Some v else dict_get d' k
  end.

(** [d[k] = v]: an existing key keeps its position, a new one goes last. *)
Fixpoint dict_set (k : string) (v : V) (d : list (string * V))
  : list (string * V) :=
  match d with
  | [] => [(k, v)]
  | (k', v') :: d' =>
      if String.eqb k' k then (k', v) :: d' else (k', v') :: dict_set k v d'
  end.

Definition dict_keys (d : list (string * V)) : list string := map fst d.

(** [d.get(k, default)] *)
Definition dict_get_default (d : list (string * V)) (k : string) (dflt : V) : V :=
  match dict_get d k with Some v => v | None => dflt end.
End Dict.

(** [type(v).__name__] *)
Definition type_name (v : value) : string :=
  match v with
  | VNone => "NoneType"
  | VBool _ => "bool"
  | VInt _ => "int"
  | VStr _ => "str"
  | VList _ => "list"
  | VDict _ => "dict"
  end.

(** The [AttributeError] of [v.name] on a value without that attribute. *)
Definition no_attribute (v : value) (name : string) : exn :=
  Raise AttributeError
    ("'" ++ type_name v ++ "' object has no attribute '" ++ name ++ "'").

(** [v.get(k, default)] on a value: an [AttributeError] unless [v] is a dict
    (lists, strings, numbers and [None] have no [get]). *)
Definition value_get (v : value) (k : string) (dflt : value) : result value :=
  match v with
  | VDict d => Ok (dict_get_default d k dflt)
  | _ => Err (no_attribute v "get")
  end.

End Py.
Import Py.

(** ** State and error monad *)

Section Monad.
Context {St : Type}.

Definition M (A : Type) : Type := St -> St * result A.

Definition ret {A} (a : A) : M A := fun s => (s, Ok a).
Definition raise {A} (e : exn) : M A := fun s => (s, Err e).

Definition bind {A B} (m : M A) (k : A -> M B) : M B :=
  fun s => match m s with
           | (s', Ok a) => k a s'
           | (s', Err e) => (s', Err e)
           end.

Definition get : M St := fun s => (s, Ok s).
Definition put (s : St) : M unit := fun _ => (s, Ok tt).
Definition lift {A} (r : result A) : M A := fun s => (s, r).

(** [try: m  except <classes>: h]; an exception [catches] rejects goes on. *)
Definition try_except {A} (m : M A) (catches : exn -> bool) (h : exn -> M A)
  : M A :=
  fun s => match m s with
           | (s', Ok a) => (s', Ok a)
           | (s', Err e) => if catches e then h e s' else (s', Err e)
           end.

(** [for x in l: body x] *)
Fixpoint for_each {A} (l : list A) (body : A -> M unit) : M unit :=
  match l with
  | [] => ret tt
  | x :: l' => bind (body x) (fun _ => for_each l' body)
  end.
End Monad.
Arguments M : clear implicits.

Notation "x <- m ;; k" := (bind m (fun x => k))
  (at level 100, m at next level, right associativity).
Notation "m ;;; k" := (bind m (fun _ => k))
  (at level 100, right associativity).

(** ** app/extensions/base.py: the registry's view of an extension class *)

(** A heap of dict objects; an address is an index.  Configuration
    mappings live here, so that two references to one mapping alias. *)
Abbreviation Heap := (list (list (string * value))).

(** [{}] or a dict display: a new object. *)
Definition alloc (d : list (string * value)) (h : Heap) : Heap * nat :=
  ((h ++ [d])%list, length h).

(** The dict at an address; callers only hold addresses of live dicts. *)
Definition deref (h : Heap) (a : nat) : list (string * value) :=
  default [] (h !! a).

(** [h[a][k] = v] *)
Definition heap_setitem (h : Heap) (a : nat) (k : string) (v : value) : Heap :=
  <[a := dict_set k v (deref h a)]> h.

(** The four classes of base.py. *)
Inductive BaseClass :=
  | BaseExtension | ServerExtension | GatewayExtension | OtherExtension.

(** A library call returns, or raises an instance of a built-in class. *)
Inductive io (A : Type) :=
  | Returns (a : A)
  | Raises (c : exn_class) (msg : string).
Arguments Returns {A} a.
Arguments Raises {A} c msg.

Definition run {A} (x : io A) : result A :=
  match x with
  | Returns a => Ok a
  | Raises c msg => Err (Raise c msg)
  end.

(** What calling a class does.  Discovery takes any proper subclass of
    [BaseExtension], so the class may still have abstract methods (calling
    it raises the [TypeError] of [ABCMeta], whose text names the class and
    the methods), and it may define an [__init__] of its own, which gets
    the heap and the address of its argument and returns the dicts it
    allocates with the address it binds as [self._config], or raises.
    No class of the repository defines an [__init__]; one that assigns
    into a mapping that exists already is not covered. *)
Inductive Construction :=
  | Inherits
  | Abstract (msg : string)
  | Overrides (init : Heap -> nat -> list (list (string * value)) * io nat).

(** A discovered class: a proper subclass of [BaseExtension] with the way
    it is constructed and the two methods of the base capability, which
    read the instance's configuration mapping through the heap. *)
Record ExtClass := {
  cls_name : string;
  cls_base : BaseClass;
  construction : Construction;
  get_metadata : Heap -> nat -> result value;
  get_config : Heap -> nat -> option value -> result value
}.

(** An instance: its class and the address of [self._config]. *)
Record Instance := {
  inst_class : ExtClass;
  _config : nat
}.

(** ** app/extensions/loader.py *)

(** What discovery reads from the outside: the directory tree below
    app/extensions and the import system. *)
Inductive PyAttr :=
  | AttrObject                (* not a class: a function, module, alias *)
  | AttrType                  (* a class that is no subclass of BaseExtension *)
  | AttrBase (b : BaseClass)  (* one of the four classes of base.py *)
  | AttrExt (c : ExtClass).   (* a proper subclass of BaseExtension *)

Record FileSystem := {
  path_exists : string -> bool;               (* os.path.exists(base/category) *)
  listdir : string -> io (list string);       (* os.listdir(base/category) *)
  isdir : string -> string -> bool;           (* os.path.isdir(base/category/item) *)
  import_module : string -> io (list (string * PyAttr))
      (* importlib.import_module(name), then dir(module) with each attribute *)
}.

Record ExtensionManager := {
  _extensions : list (string * list (string * ExtClass));
  _loaded : bool
}.

(** The interpreter state the registry runs in: the global manager object,
    the heap, and the trace of [_load_category] runs (the discovery
    counter). *)
Record Runtime := {
  self : ExtensionManager;
  heap : Heap;
  scans : list string
}.

Definition R := M Runtime.

(** [ExtensionManager.__init__] *)
Definition ExtensionManager__init__ : ExtensionManager :=
  {| _extensions := [("servers", []); ("gateways", []); ("others", [])];
     _loaded := false |}.

Definition set_self (m : ExtensionManager) : R unit :=
  fun st => ({| self := m; heap := heap st; scans := scans st |}, Ok tt).

Definition count_scan (category : string) : R unit :=
  fun st => ({| self := self st; heap := heap st;
                scans := (scans st ++ [category])%list |}, Ok tt).

Definition new_dict (d : list (string * value)) : R nat :=
  fun st => let '(h, a) := alloc d (heap st) in
            ({| self := self st; heap := h; scans := scans st |}, Ok a).

(** The first attribute, in [dir(module)] order, that is a class, a subclass
    of [BaseExtension], and none of the four base classes. *)
Fixpoint find_extension_class (attrs : list (string * PyAttr)) : option ExtClass :=
  match attrs with
  | [] => None
  | (_, AttrExt c) :: _ => Some c
  | _ :: attrs' => find_extension_class attrs'
  end.

(** [self._extensions[category][key] = attr] *)
Definition register (category key : string) (attr : ExtClass) : R unit :=
  st <- get ;;
  match dict_get (_extensions (self st)) category with
  | None => raise (Raise KeyError ("'" ++ category ++ "'"))
  | Some exts =>
      set_self {| _extensions := dict_set category (dict_set key attr exts)
                                   (_extensions (self st));
                  _loaded := _loaded (self st) |}
  end.

Section Loader.
Variable fs : FileSystem.

(** The body of the [try] in [_load_category]. *)
Definition load_item (category item : string) : R unit :=
  let module_name :=
    "app.extensions." ++ category ++ "." ++ item ++ "." ++ lower item in
  attrs <- lift (run (import_module fs module_name)) ;;
  match find_extension_class attrs with
  | Some attr => register category (lower item) attr
  | None => ret tt
  end.

(** [count_scan] is the counter of discovery runs; the rest is the
    method as written: only [ImportError] and [AttributeError] are caught,
    and any other exception leaves the loop and the method. *)
Definition _load_category (category : string) : R unit :=
  count_scan category ;;;
  if negb (path_exists fs category) then ret tt
  else
    items <- lift (run (listdir fs category)) ;;
    for_each items (fun item =>
      if String.prefix "__" item || negb (isdir fs category item) then ret tt
      else
        try_except (load_item category item)
          (fun e => isinstance e ImportError || isinstance e AttributeError)
          (fun _ => ret tt)).

(** [_loaded] is set after the three categories, so only when none of
    them raised. *)
Definition load_extensions : R unit :=
  st <- get ;;
  if _loaded (self st) then ret tt
  else
    _load_category "servers" ;;;
    _load_category "gateways" ;;;
    _load_category "others" ;;;
    st <- get ;;
    set_self {| _extensions := _extensions (self st); _loaded := true |}.

(** [config or {}] *)
Definition or_empty (config : option nat) : R nat :=
  match config with
  | None => new_dict []
  | Some a =>
      st <- get ;;
      match deref (heap st) a with
      | [] => new_dict []
      | _ :: _ => ret a
      end
  end.

(** [BaseExtension.__init__]: [self._config = config or {}]. *)
Definition BaseExtension__init__ (cls : ExtClass) (config : option nat)
  : R Instance :=
  a <- or_empty config ;;
  ret {| inst_class := cls; _config := a |}.

(** The heap grows by the dicts an [__init__] allocates. *)
Definition new_dicts (new : list (list (string * value))) : R unit :=
  fun st => ({| self := self st; heap := (heap st ++ new)%list;
                scans := scans st |}, Ok tt).

(** [cls(arg)]: the call of a discovered class on the address of its
    argument. *)
Definition instantiate (cls : ExtClass) (arg : nat) : R Instance :=
  match construction cls with
  | Inherits => BaseExtension__init__ cls (Some arg)
  | Abstract msg => raise (Raise TypeError msg)
  | Overrides init =>
      st <- get ;;
      let '(new, bound) := init (heap st) arg in
      new_dicts new ;;;
      a <- lift (run bound) ;;
      ret {| inst_class := cls; _config := a |}
  end.

(** [config] is [None] or the address of the caller's dict.  On a hit
    [extension_class(config or {})] evaluates [config or {}] and calls the
    class on the result; the inherited [__init__] evaluates [config or {}]
    again. *)
Definition get_extension (category name : string) (config : option nat)
  : R (option Instance) :=
  st <- get ;;
  (if negb (_loaded (self st)) then load_extensions else ret tt) ;;;
  st <- get ;;
  let extension_class :=
    dict_get (dict_get_default (_extensions (self st)) category [])
             (lower name) in
  match extension_class with
  | Some cls =>
      a <- or_empty config ;;
      inst <- instantiate cls a ;;
      ret (Some inst)
  | None => ret None
  end.

(** [if category:] is a truth test: [None] and [''] both take the branch
    without a filter. *)
Definition list_extensions (category : option string)
  : R (list (string * list string)) :=
  st <- get ;;
  (if negb (_loaded (self st)) then load_extensions else ret tt) ;;;
  st <- get ;;
  let exts := _extensions (self st) in
  match category with
  | Some c =>
      if negb (String.eqb c "")
      then ret [(c, dict_keys (dict_get_default exts c []))]
      else ret (map (fun '(cat, e) => (cat, dict_keys e)) exts)
  | None => ret (map (fun '(cat, e) => (cat, dict_keys e)) exts)
  end.

(** ** app/api/v1/endpoints/extensions.py *)

Definition HTTP_400_BAD_REQUEST : Z := 400.
Definition HTTP_404_NOT_FOUND : Z := 404.

Definition list_all_extensions : R (list (string * list string)) :=
  list_extensions None.

Definition list_extensions_by_category (category : string)
  : R (list (string * list string)) :=
  if negb (bool_decide (category ∈ ["servers"; "gateways"; "others"]))
  then raise (HTTPException HTTP_400_BAD_REQUEST
                "Invalid category. Must be one of: servers, gateways, others")
  else list_extensions (Some category).

Definition get_extension_metadata (category name : string) : R value :=
  extension <- get_extension category name None ;;
  match extension with
  | None =>
      raise (HTTPException HTTP_404_NOT_FOUND
               ("Extension " ++ category ++ "/" ++ name ++ " not found"))
  | Some ext =>
      st <- get ;;
      lift (get_metadata (inst_class ext) (heap st) (_config ext))
  end.

Definition get_extension_config (category name : string) : R value :=
  extension <- get_extension category name None ;;
  match extension with
  | None =>
      raise (HTTPException HTTP_404_NOT_FOUND
               ("Extension " ++ category ++ "/" ++ name ++ " not found"))
  | Some ext =>
      st <- get ;;
      lift (get_config (inst_class ext) (heap st) (_config ext) None)
  end.

(** [BaseExtension.config]: [self._config.get(key, default)] *)
Definition config (h : Heap) (inst : Instance) (key : string) (dflt : value)
  : value :=
  dict_get_default (deref h (_config inst)) key dflt.
End Loader.

(** ** The shipped extensions: metadata and configuration schemas *)

Definition field (name type label description : string)
    (more : list (string * value)) : value :=
  VDict ([("name", VStr name); ("type", VStr type); ("label", VStr label);
          ("description", VStr description)] ++ more)%list.

Module Proxmox.
Definition get_metadata (h : Heap) (self_config : nat) : result value :=
  Ok (VDict [("name", VStr "Proxmox VE");
             ("description",
              VStr "Proxmox Virtual Environment server integration");
             ("version", VStr "1.0.0");
             ("author", VStr "Paymenter");
             ("type", VStr "server")]).

Definition get_config (h : Heap) (self_config : nat) (values : option value)
  : result value :=
  Ok (VList [
    field "host" "text" "Proxmox Host"
      "Proxmox server hostname or IP address" [("required", VBool true)];
    field "port" "number" "Port" "Proxmox API port (default: 8006)"
      [("default", VInt 8006); ("required", VBool true)];
    field "username" "text" "API Token ID"
      "Proxmox API Token ID (e.g., user@pam!tokenid)"
      [("required", VBool true)];
    field "password" "password" "API Token Secret"
      "Proxmox API Token Secret" [("required", VBool true)];
    field "node" "text" "Node Name" "Proxmox node name to create VMs on"
      [("required", VBool true)];
    field "storage" "text" "Storage" "Storage location for VM disks"
      [("required", VBool true)];
    field "bridge" "text" "Network Bridge"
      "Network bridge name (e.g., vmbr0)"
      [("default", VStr "vmbr0"); ("required", VBool true)]]).

Definition class : ExtClass :=
  Build_ExtClass "Proxmox" ServerExtension Inherits get_metadata get_config.
End Proxmox.

Module Stripe.
Definition API_VERSION : string := "2025-07-30.basil".

Definition get_metadata (h : Heap) (self_config : nat) : result value :=
  Ok (VDict [("name", VStr "Stripe");
             ("description", VStr "Stripe payment gateway integration");
             ("version", VStr "1.0.0");
             ("author", VStr "Paymenter");
             ("type", VStr "gateway")]).

Definition get_config (h : Heap) (self_config : nat) (values : option value)
  : result value :=
  Ok (VList [
    field "secret_key" "password" "Secret Key" "Stripe secret key (sk_...)"
      [("required", VBool true)];
    field "publishable_key" "text" "Publishable Key"
      "Stripe publishable key (pk_...)" [("required", VBool true)];
    field "webhook_secret" "password" "Webhook Secret"
      "Stripe webhook signing secret" [("required", VBool false)];
    field "mode" "select" "Mode" "Payment or subscription mode"
      [("options",
        VList [VDict [("value", VStr "payment");
                      ("label", VStr "One-time payment")];
               VDict [("value", VStr "subscription");
                      ("label", VStr "Subscription")]]);
       ("default", VStr "payment");
       ("required", VBool true)]]).

Definition class : ExtClass :=
  Build_ExtClass "Stripe" GatewayExtension Inherits get_metadata get_config.
End Stripe.

Module DiscordNotifications.
Definition get_metadata (h : Heap) (self_config : nat) : result value :=
  Ok (VDict [("name", VStr "Discord Notifications");
             ("description",
              VStr "Send notifications to Discord via webhooks");
             ("version", VStr "1.0.0");
             ("author", VStr "Paymenter");
             ("type", VStr "notification")]).

Definition get_config (h : Heap) (self_config : nat) (values : option value)
  : result value :=
  Ok (VList [
    field "webhook_url" "text" "Webhook URL" "Discord webhook URL"
      [("required", VBool true)];
    field "username" "text" "Bot Username" "Username to display for the bot"
      [("default", VStr "Paymenter"); ("required", VBool false)];
    field "avatar_url" "text" "Avatar URL" "URL of the avatar image"
      [("required", VBool false)];
    field "notify_new_user" "boolean" "Notify on New User"
      "Send notification when a new user registers"
      [("default", VBool true)];
    field "notify_new_order" "boolean" "Notify on New Order"
      "Send notification when a new order is placed"
      [("default", VBool true)];
    field "notify_payment" "boolean" "Notify on Payment"
      "Send notification when a payment is received"
      [("default", VBool true)];
    field "notify_ticket" "boolean" "Notify on New Ticket"
      "Send notification when a new ticket is created"
      [("default", VBool true)]]).

Definition class : ExtClass :=
  Build_ExtClass "DiscordNotifications" OtherExtension Inherits get_metadata get_config.
End DiscordNotifications.

Definition shipped_classes : list ExtClass :=
  [Proxmox.class; Stripe.class; DiscordNotifications.class].

(** The source tree below app/extensions: one package per category, one
    directory per extension, and what [dir()] shows of each module (sorted
    by name, as [dir] returns it). *)
Definition module_attrs (classes : list (string * PyAttr))
  : list (string * PyAttr) :=
  (classes ++
   [("__builtins__", AttrObject); ("__doc__", AttrObject);
    ("__file__", AttrObject); ("__name__", AttrObject);
    ("httpx", AttrObject)])%list.

Definition shipped_listing (category : string) : option string :=
  if String.eqb category "servers" then Some "Proxmox"
  else if String.eqb category "gateways" then Some "Stripe"
  else if String.eqb category "others" then Some "DiscordNotifications"
  else None.

Definition shipped_fs : FileSystem :=
  {| path_exists := fun category => bool_decide (is_Some (shipped_listing category));
     listdir := fun category =>
       match shipped_listing category with
       | Some d => Returns [d]
       | None => Raises OSError "No such file or directory"
       end;
     isdir := fun category item =>
       match shipped_listing category with
       | Some d => String.eqb item d
       | None => false
       end;
     import_module := fun name =>
       if String.eqb name "app.extensions.servers.Proxmox.proxmox"
       then Returns (module_attrs
                  [("Any", AttrType); ("Dict", AttrObject);
                   ("List", AttrObject); ("Proxmox", AttrExt Proxmox.class);
                   ("ServerExtension", AttrBase ServerExtension)])
       else if String.eqb name "app.extensions.gateways.Stripe.stripe"
       then Returns (module_attrs
                  [("Any", AttrType); ("Dict", AttrObject);
                   ("GatewayExtension", AttrBase GatewayExtension);
                   ("List", AttrObject); ("Stripe", AttrExt Stripe.class)])
       else if String.eqb name
         "app.extensions.others.DiscordNotifications.discordnotifications"
       then Returns (module_attrs
                  [("Any", AttrType); ("Dict", AttrObject);
                   ("DiscordNotifications",
                    AttrExt DiscordNotifications.class);
                   ("List", AttrObject);
                   ("OtherExtension", AttrBase OtherExtension)])
       else Raises ModuleNotFoundError ("No module named " ++ name) |}.

(** A fresh interpreter: the module-level [extension_manager], no dict
    allocated, nothing scanned. *)
Definition boot : Runtime :=
  {| self := ExtensionManager__init__; heap := []; scans := [] |}.

(** ** Operations of the contracts *)

(** An HTTP response as the extensions use it: [is_success], [json()]
    (which raises on a body that is not JSON) and [text]. *)
Record Response := {
  is_success : bool;
  json : result value;
  text : string
}.

Inductive Payload :=
  | NoPayload
  | Params (v : value)      (* params=... *)
  | JsonBody (v : value)    (* json=... *)
  | FormData (v : value).   (* data=... *)

Record HttpCall := {
  verify : bool;
  verb : string;
  url : string;
  headers : list (string * string);
  payload : Payload
}.

(** A service as the provisioners read it: [service.id] and what reading
    the attribute [service.service_config] gives: its value, or the
    exception of the access (the [AttributeError] of an object that has no
    such attribute, whose text names the type of the object). *)
Record Service := {
  id : Z;
  service_config : io value
}.

(** The raw request a webhook receives: [request.headers] and
    [request.body]. *)
Record WebhookRequest := {
  request_headers : list (string * string);
  body : string
}.

(** [x or {}] *)
Definition or_empty_value (x : value) : value :=
  if truthy x then x else VDict [].

Definition data_or_empty (data : option value) : value :=
  match data with Some d => or_empty_value d | None => VDict [] end.

Section Operations.
(** [str(v)], as f-strings apply it. *)
Variable py_str : value -> string.
(** The network: what sending a request does to the remote systems and
    what comes back; a raised transport error is an [Err]. *)
Variable World : Type.
Variable httpx_send : HttpCall -> M World Response.
(** A transaction, opaque to the gateway contract. *)
Variable Transaction : Type.

Definition W := M World.

(** [service.service_config.get('vmid')] *)
Definition service_vmid (service : Service) : result value :=
  match run (service_config service) with
  | Ok c => value_get c "vmid" VNone
  | Err e => Err e
  end.

(** *** Proxmox *)

Definition Proxmox_request (h : Heap) (self : Instance)
    (url method : string) (data : option value) : W value :=
  let host := config h self "host" VNone in
  let port := config h self "port" (VInt 8006) in
  let username := config h self "username" VNone in
  let password := config h self "password" VNone in
  let req_url :=
    "https://" ++ py_str host ++ ":" ++ py_str port ++ "/api2/json" ++ url in
  let headers :=
    [("Authorization",
      "PVEAPIToken=" ++ py_str username ++ "=" ++ py_str password);
     ("Accept", "application/json");
     ("Content-Type", "application/json")] in
  let call p := httpx_send {| verify := false; verb := upper method;
                              url := req_url; headers := headers;
                              payload := p |} in
  response <-
    (if String.eqb (upper method) "GET" then call (Params (data_or_empty data))
     else if String.eqb (upper method) "POST"
       then call (JsonBody (data_or_empty data))
     else if String.eqb (upper method) "PUT"
       then call (JsonBody (data_or_empty data))
     else if String.eqb (upper method) "DELETE" then call NoPayload
     else raise (Raise ValueError ("Unsupported HTTP method: " ++ method))) ;;
  if negb (is_success response) then
    j <- lift (json response) ;;
    error <- lift (value_get j "errors" (VStr (text response))) ;;
    raise (Raise Exception ("Proxmox API Error: " ++ py_str error))
  else
    j <- lift (json response) ;;
    ret (or_empty_value j).

Definition Proxmox_suspend (h : Heap) (self : Instance) (service : Service)
  : W value :=
  let node := config h self "node" VNone in
  vmid <- lift (service_vmid service) ;;
  if negb (truthy vmid)
  then raise (Raise Exception "VM ID not found in service configuration")
  else
    result <- Proxmox_request h self
      ("/nodes/" ++ py_str node ++ "/qemu/" ++ py_str vmid ++ "/status/stop")
      "POST" None ;;
    ret (VDict [("success", VBool true);
                ("message",
                 VStr ("VM " ++ py_str vmid ++ " suspended successfully"));
                ("data", result)]).

Definition Proxmox_unsuspend (h : Heap) (self : Instance) (service : Service)
  : W value :=
  let node := config h self "node" VNone in
  vmid <- lift (service_vmid service) ;;
  if negb (truthy vmid)
  then raise (Raise Exception "VM ID not found in service configuration")
  else
    result <- Proxmox_request h self
      ("/nodes/" ++ py_str node ++ "/qemu/" ++ py_str vmid ++ "/status/start")
      "POST" None ;;
    ret (VDict [("success", VBool true);
                ("message",
                 VStr ("VM " ++ py_str vmid ++ " unsuspended successfully"));
                ("data", result)]).

(** The two requests of [terminate]. *)
Definition stop_call (h : Heap) (self : Instance) (vmid : value) : W value :=
  Proxmox_request h self
    ("/nodes/" ++ py_str (config h self "node" VNone) ++ "/qemu/"
       ++ py_str vmid ++ "/status/stop") "POST" None.

Definition delete_call (h : Heap) (self : Instance) (vmid : value) : W value :=
  Proxmox_request h self
    ("/nodes/" ++ py_str (config h self "node" VNone) ++ "/qemu/"
       ++ py_str vmid) "DELETE" None.

Definition Proxmox_terminate (h : Heap) (self : Instance) (service : Service)
  : W value :=
  vmid <- lift (service_vmid service) ;;
  if negb (truthy vmid)
  then raise (Raise Exception "VM ID not found in service configuration")
  else
    (* try: stop  except: pass *)
    try_except (stop_call h self vmid ;;; ret tt)
      (fun _ => true) (fun _ => ret tt) ;;;
    result <- delete_call h self vmid ;;
    ret (VDict [("success", VBool true);
                ("message",
                 VStr ("VM " ++ py_str vmid ++ " terminated successfully"));
                ("data", result)]).

(** *** The gateway contract *)

(** [GatewayExtension.refund], the default of base.py. *)
Definition GatewayExtension_refund (h : Heap) (self : Instance)
    (transaction : Transaction) : W value :=
  raise (Raise NotImplementedError "Refund not supported by this gateway").

(** A gateway class with the methods it defines itself; [own_refund] is
    [None] for a class whose body has no [refund]. *)
Record GatewayClass := {
  gateway_class : ExtClass;
  own_refund : option (Heap -> Instance -> Transaction -> W value)
}.

(** [instance.refund(transaction)]: the class's own method if it has one,
    else the inherited one. *)
Definition refund (g : GatewayClass) (h : Heap) (self : Instance)
    (transaction : Transaction) : W value :=
  match own_refund g with
  | Some f => f h self transaction
  | None => GatewayExtension_refund h self transaction
  end.
End Operations.

(** *** Stripe: the webhook handler *)

Definition and_then {A B} (r : result A) (k : A -> result B) : result B :=
  match r with Ok a => k a | Err e => Err e end.

Notation "x <~ r ;; k" := (and_then r (fun x => k))
  (at level 100, r at next level, right associativity).

(** The [ValueError] of [dict] for element [i] of length [n]. *)
Definition wrong_length (i n : nat) : exn :=
  Raise ValueError
    ("dictionary update sequence element #" ++ pretty i ++ " has length "
       ++ pretty n ++ "; 2 is required").

(** [dict(pairs)], from element [i] on: every element must have exactly
    two items, and the first that has not stops the update. *)
Fixpoint dict_update (i : nat) (pairs : list (list string))
    (acc : list (string * string)) : result (list (string * string)) :=
  match pairs with
  | [] => Ok acc
  | [k; v] :: pairs' => dict_update (S i) pairs' (dict_set k v acc)
  | element :: _ => Err (wrong_length i (length element))
  end.

Definition dict_of_pairs (pairs : list (list string))
    (acc : list (string * string)) : result (list (string * string)) :=
  dict_update 0 pairs acc.

(** [f"{timestamp}"] for the optional string [sig_parts.get('t')]. *)
Definition format_timestamp (timestamp : option string) : string :=
  match timestamp with Some t => t | None => "None" end.

(** [webhook_secret.encode('utf-8')] *)
Definition encode_secret (webhook_secret : value) : result string :=
  match webhook_secret with
  | VStr s => Ok s
  | _ => Err (no_attribute webhook_secret "encode")
  end.

Section Webhook.
(** [hmac.new(key, msg, hashlib.sha256).hexdigest()], [json.loads] and
    [bytes.decode('utf-8')]. *)
Variable hmac_sha256_hexdigest : string -> string -> string.
Variable json_loads : string -> result value.
Variable decode_utf8 : string -> result string.

(** The body of [if webhook_secret:] in [Stripe.webhook]. *)
Definition verify_signature (webhook_secret : value)
    (request : WebhookRequest) : result unit :=
  let signature :=
    dict_get_default (request_headers request) "Stripe-Signature" "" in
  let payload := body request in
  sig_parts <~ dict_of_pairs (map (split "=") (split "," signature)) [] ;;
  let timestamp := dict_get sig_parts "t" in
  let signatures := split "," (dict_get_default sig_parts "v1" "") in
  decoded <~ decode_utf8 payload ;;
  let signed_payload := format_timestamp timestamp ++ "." ++ decoded in
  key <~ encode_secret webhook_secret ;;
  let expected_sig := hmac_sha256_hexdigest key signed_payload in
  if negb (bool_decide (expected_sig ∈ signatures))
  then Err (Raise Exception "Invalid webhook signature")
  else Ok tt.

Definition is_str (v : value) (s : string) : bool :=
  match v with VStr s' => String.eqb s' s | _ => false end.

(** What follows the verification block: parse the event and answer. *)
Definition process_event (request : WebhookRequest) : result value :=
  event <~ json_loads (body request) ;;
  event_type <~ value_get event "type" VNone ;;
  if is_str event_type "checkout.session.completed" then
    data <~ value_get event "data" (VDict []) ;;
    session <~ value_get data "object" (VDict []) ;;
    metadata <~ value_get session "metadata" (VDict []) ;;
    invoice_id <~ value_get metadata "invoice_id" VNone ;;
    Ok (VDict [("success", VBool true); ("event", event_type);
               ("invoice_id", invoice_id); ("status", VStr "paid")])
  else
    Ok (VDict [("success", VBool true); ("event", event_type);
               ("status", VStr "processed")]).

Definition Stripe_webhook (h : Heap) (self : Instance)
    (request : WebhookRequest) : result value :=
  let webhook_secret := config h self "webhook_secret" VNone in
  _ <~ (if truthy webhook_secret
        then verify_signature webhook_secret request
        else Ok tt) ;;
  process_event request.
End Webhook.

(** ** The remaining operations of the shipped extensions *)

(** [service.service_config] *)
Definition get_service_config (service : Service) : result value :=
  run (service_config service).

(** [v == 'literal'] for a string literal. *)
Definition eq_str (v : value) (s : string) : bool :=
  match v with VStr s' => String.eqb s' s | _ => false end.

Section MoreOperations.
Variable py_str : value -> string.
(** [s.title()] *)
Variable py_title : string -> string.
Variable World : Type.
Variable httpx_send : HttpCall -> M World Response.

(** *** Proxmox: [create] and [get_login_url] *)

Definition Proxmox_create (h : Heap) (self : Instance) (service : Service)
  : M World value :=
  let node := config h self "node" VNone in
  let storage := config h self "storage" VNone in
  let bridge := config h self "bridge" (VStr "vmbr0") in
  vmid_response <-
    Proxmox_request py_str World httpx_send h self "/cluster/nextid" "GET"
      None ;;
  vmid <- lift (value_get vmid_response "data" VNone) ;;
  sc <- lift (get_service_config service) ;;
  cores <- lift (value_get sc "cores" (VInt 1)) ;;
  sc' <- lift (get_service_config service) ;;
  memory <- lift (value_get sc' "memory" (VInt 1024)) ;;
  let vm_config :=
    VDict [("vmid", vmid);
           ("name", VStr ("vm-" ++ py_str (VInt (id service))));
           ("cores", cores);
           ("memory", memory);
           ("storage", storage);
           ("ostype", VStr "l26");
           ("net0", VStr ("virtio,bridge=" ++ py_str bridge))] in
  result <-
    Proxmox_request py_str World httpx_send h self
      ("/nodes/" ++ py_str node ++ "/qemu") "POST" (Some vm_config) ;;
  ret (VDict [("success", VBool true);
              ("vmid", vmid);
              ("message",
               VStr ("VM " ++ py_str vmid ++ " created successfully"));
              ("data", result)]).

Definition Proxmox_get_login_url (h : Heap) (self : Instance)
    (service : Service) : result value :=
  let host := config h self "host" VNone in
  let port := config h self "port" (VInt 8006) in
  vmid <~ service_vmid service ;;
  if negb (truthy vmid) then Ok VNone
  else Ok (VStr ("https://" ++ py_str host ++ ":" ++ py_str port
                   ++ "/#v1:0:=qemu/" ++ py_str vmid ++ ":4:5:::")).

(** *** Stripe: [request] *)

Definition Stripe_request (h : Heap) (self : Instance)
    (url method : string) (data : option value) : M World value :=
  let secret_key := config h self "secret_key" VNone in
  let url :=
    if negb (String.prefix "http" url)
    then "https://api.stripe.com/v1" ++ url else url in
  let headers :=
    [("Authorization", "Bearer " ++ py_str secret_key);
     ("Stripe-Version", Stripe.API_VERSION);
     ("Content-Type", "application/x-www-form-urlencoded")] in
  let call p := httpx_send {| verify := true; verb := upper method;
                              url := url; headers := headers;
                              payload := p |} in
  response <-
    (if String.eqb (upper method) "GET" then call (Params (data_or_empty data))
     else if String.eqb (upper method) "POST"
       then call (FormData (data_or_empty data))
     else if String.eqb (upper method) "DELETE" then call NoPayload
     else raise (Raise ValueError ("Unsupported HTTP method: " ++ method))) ;;
  if negb (is_success response) then
    j <- lift (json response) ;;
    err <- lift (value_get j "error" (VDict [])) ;;
    error <- lift (value_get err "message" (VStr (text response))) ;;
    raise (Raise Exception ("Stripe API Error: " ++ py_str error))
  else
    j <- lift (json response) ;;
    ret (or_empty_value j).

(** *** DiscordNotifications *)

(** [client.post(webhook_url, json=data)]: httpx takes a string for the
    URL and raises [TypeError] on anything else, naming the type and the
    [repr] of what it got, which for a value that is not a string is its
    [str]. *)
Definition Discord_send_webhook (h : Heap) (self : Instance)
    (content : value) (embeds : value) : M World value :=
  let webhook_url := config h self "webhook_url" VNone in
  if negb (truthy webhook_url)
  then raise (Raise Exception "Webhook URL not configured")
  else
    let data := [("username", config h self "username" (VStr "Paymenter"))] in
    let data :=
      if truthy (config h self "avatar_url" VNone)
      then dict_set "avatar_url" (config h self "avatar_url" VNone) data
      else data in
    let data := if truthy content then dict_set "content" content data
                else data in
    let data := if truthy embeds then dict_set "embeds" embeds data
                else data in
    response <-
      match webhook_url with
      | VStr u => httpx_send {| verify := true; verb := "POST"; url := u;
                                headers := [];
                                payload := JsonBody (VDict data) |}
      | _ =>
          raise (Raise TypeError
                   ("Invalid type for url.  Expected str or httpx.URL, got <class '"
                      ++ type_name webhook_url ++ "'>: "
                      ++ py_str webhook_url))
      end ;;
    if negb (is_success response)
    then raise (Raise Exception
                  ("Discord webhook error: " ++ text response))
    else ret (VDict [("success", VBool true);
                     ("message", VStr "Notification sent successfully")]).

(** One field of an embed. *)
Definition embed_field (name : string) (v : value) : value :=
  VDict [("name", VStr name); ("value", v); ("inline", VBool true)].

(** [x.title()]: strings only. *)
Definition title_of (v : value) : result value :=
  match v with
  | VStr s => Ok (VStr (py_title s))
  | _ => Err (no_attribute v "title")
  end.

(** [_build_embed]: [None] for an event it does not know. *)
Definition Discord__build_embed (event data : value) : result value :=
  if eq_str event "new_user" then
    name <~ value_get data "name" VNone ;;
    email <~ value_get data "email" (VStr "N/A") ;;
    uid <~ value_get data "id" (VStr "N/A") ;;
    created <~ value_get data "created_at" VNone ;;
    Ok (VDict [("title", VStr "🆕 New User Registration");
               ("description",
                VStr ("User **" ++ py_str name ++ "** has registered"));
               ("color", VInt 65280);
               ("fields", VList [embed_field "Email" email;
                                 embed_field "User ID" (VStr (py_str uid))]);
               ("timestamp", created)])
  else if eq_str event "new_order" then
    oid <~ value_get data "id" VNone ;;
    customer <~ value_get data "customer_name" (VStr "N/A") ;;
    currency <~ value_get data "currency" (VStr "USD") ;;
    total <~ value_get data "total" (VInt 0) ;;
    created <~ value_get data "created_at" VNone ;;
    Ok (VDict [("title", VStr "🛒 New Order");
               ("description",
                VStr ("Order **#" ++ py_str oid ++ "** has been placed"));
               ("color", VInt 39423);
               ("fields",
                VList [embed_field "Customer" customer;
                       embed_field "Total"
                         (VStr (py_str currency ++ " " ++ py_str total))]);
               ("timestamp", created)])
  else if eq_str event "payment" then
    invoice <~ value_get data "invoice_id" VNone ;;
    currency <~ value_get data "currency" (VStr "USD") ;;
    amount <~ value_get data "amount" (VInt 0) ;;
    customer <~ value_get data "customer_name" (VStr "N/A") ;;
    paid <~ value_get data "paid_at" VNone ;;
    Ok (VDict [("title", VStr "💰 Payment Received");
               ("description",
                VStr ("Payment for invoice **#" ++ py_str invoice ++ "**"));
               ("color", VInt 65280);
               ("fields",
                VList [embed_field "Amount"
                         (VStr (py_str currency ++ " " ++ py_str amount));
                       embed_field "Customer" customer]);
               ("timestamp", paid)])
  else if eq_str event "ticket" then
    tid <~ value_get data "id" VNone ;;
    subject <~ value_get data "subject" VNone ;;
    user <~ value_get data "user_name" (VStr "N/A") ;;
    priority <~ value_get data "priority" (VStr "normal") ;;
    priority <~ title_of priority ;;
    created <~ value_get data "created_at" VNone ;;
    Ok (VDict [("title", VStr "🎫 New Support Ticket");
               ("description",
                VStr ("Ticket **#" ++ py_str tid ++ "**: " ++ py_str subject));
               ("color", VInt 16750848);
               ("fields", VList [embed_field "User" user;
                                 embed_field "Priority" priority]);
               ("timestamp", created)])
  else Ok VNone.

(** [execute], called with keyword arguments. *)
Definition Discord_execute (h : Heap) (self : Instance)
    (kwargs : list (string * value)) : M World value :=
  let event := dict_get_default kwargs "event" VNone in
  let data := dict_get_default kwargs "data" (VDict []) in
  let notify_key := "notify_" ++ py_str event in
  if negb (truthy (config h self notify_key (VBool true)))
  then ret (VDict [("success", VBool true);
                   ("message",
                    VStr "Notification disabled for this event type")])
  else
    embed <- lift (Discord__build_embed event data) ;;
    if truthy embed
    then Discord_send_webhook h self VNone (VList [embed])
    else ret (VDict [("success", VBool true);
                     ("message", VStr "No notification sent")]).
End MoreOperations.

(** ** Vocabulary of the statements *)

(** The exceptions of the built-in classes, as opposed to the HTTP errors
    the endpoints raise. *)
Definition builtin (e : exn) : Prop :=
  match e with Raise _ _ => True | HTTPException _ _ => False end.

(** The index has the three category keys, and no category lists a name
    twice. *)
Definition well_formed (m : ExtensionManager) : Prop :=
  dict_keys (_extensions m) = ["servers"; "gateways"; "others"] /\
  Forall (fun cd => NoDup (dict_keys cd.2)) (_extensions m).

(** Discovery runs within these bounds: it allocates nothing, logs its
    scans, leaves the flag to [load_extensions], and keeps the index
    well-formed if it was ([W] says that it was). *)
Definition within (W : Prop) (h : Heap) (sc : list string) (b : bool)
    (st : Runtime) : Prop :=
  heap st = h /\ scans st = sc /\ _loaded (self st) = b /\
  (W -> well_formed (self st)).

(** [n] calls of [load_extensions] in sequence on one registry; a call that
    raises returns to its caller, which goes on to the next call. *)
Fixpoint after_calls (fs : FileSystem) (n : nat) (st : Runtime) : Runtime :=
  match n with
  | O => st
  | S n' => after_calls fs n' (load_extensions fs st).1
  end.

(** The name index of a category: [self._extensions.get(category, {})]. *)
Definition index (st : Runtime) (category : string)
  : list (string * ExtClass) :=
  dict_get_default (_extensions (self st)) category [].

(** A tree in which the one gateway module fails to compile: its import
    raises [SyntaxError], which [_load_category] does not catch. *)
Definition broken_fs : FileSystem :=
  {| path_exists := fun _ => true;
     listdir := fun category =>
       if String.eqb category "gateways" then Returns ["Broken"]
       else Returns [];
     isdir := fun _ _ => true;
     import_module := fun name => Raises SyntaxError "invalid syntax" |}.

(** A gateway class that implements the base capability but neither [pay]
    nor [webhook]: a proper subclass of [BaseExtension] that discovery
    registers and that cannot be instantiated.  The text of the
    [TypeError] is the interpreter's, here in the wording of CPython 3.11;
    the statements below hold for any text. *)
Definition partial_class : ExtClass :=
  Build_ExtClass "Partial" GatewayExtension
    (Abstract
       "Can't instantiate abstract class Partial with abstract methods pay, webhook")
    (fun _ _ => Ok (VDict [("name", VStr "Partial")]))
    (fun _ _ _ => Ok (VList [])).

Definition partial_fs : FileSystem :=
  {| path_exists := fun category => String.eqb category "gateways";
     listdir := fun _ => Returns ["Partial"];
     isdir := fun _ _ => true;
     import_module := fun name =>
       if String.eqb name "app.extensions.gateways.Partial.partial"
       then Returns [("GatewayExtension", AttrBase GatewayExtension);
                     ("Partial", AttrExt partial_class)]
       else Raises ModuleNotFoundError ("No module named " ++ name) |}.

(** How often a category was scanned. *)
Definition scan_count (st : Runtime) (category : string) : nat :=
  count_occ String.string_dec (scans st) category.

(** The state with another heap. *)
Definition with_heap (st : Runtime) (h : Heap) : Runtime :=
  {| self := self st; heap := h; scans := scans st |}.

(** [config or {}] on the heap alone. *)
Definition or_empty_heap (config : option nat) (h : Heap) : Heap * nat :=
  match config with
  | None => alloc [] h
  | Some a => match deref h a with
              | [] => alloc [] h
              | _ :: _ => (h, a)
              end
  end.

(** The mapping an instance ends up bound to: [config or {}] at the call
    in [get_extension], then once more in [__init__]. *)
Definition bind_config (config : option nat) (h : Heap) : Heap * nat :=
  let '(h1, a1) := or_empty_heap config h in
  or_empty_heap (Some a1) h1.

(** [extension_class(config or {})] on the heap alone: the heap it leaves
    and the instance or the exception. *)
Definition construct (cls : ExtClass) (config : option nat) (h : Heap)
  : Heap * result Instance :=
  let '(h1, a1) := or_empty_heap config h in
  match construction cls with
  | Inherits =>
      let '(h2, a2) := or_empty_heap (Some a1) h1 in
      (h2, Ok {| inst_class := cls; _config := a2 |})
  | Abstract msg => (h1, Err (Raise TypeError msg))
  | Overrides init =>
      let '(new, bound) := init h1 a1 in
      ((h1 ++ new)%list,
       match run bound with
       | Ok a => Ok {| inst_class := cls; _config := a |}
       | Err e => Err e
       end)
  end.

(** The 404 of the metadata and config endpoints. *)
Definition not_found (category name : string) : exn :=
  HTTPException 404 ("Extension " ++ category ++ "/" ++ name ++ " not found").

(** Discovery files the class found in directory [s] of a category under
    the key [s.lower()]; that is what being registered under [s] means. *)
Definition registered (st : Runtime) (category s : string) (cls : ExtClass)
  : Prop :=
  dict_get (index st category) (lower s) = Some cls.

(** The mapping [list_extensions] builds without a filter. *)
Definition listing (st : Runtime) : list (string * list string) :=
  map (fun '(cat, e) => (cat, dict_keys e)) (_extensions (self st)).

Definition categories : list string := ["servers"; "gateways"; "others"].

(** The 400 of the category endpoint. *)
Definition invalid_category (e : exn) : Prop :=
  exists detail, e = HTTPException 400 detail.

(** A tree without any extension: every category is still a key. *)
Definition empty_fs : FileSystem :=
  {| path_exists := fun _ => false;
     listdir := fun _ => Raises OSError "No such file or directory";
     isdir := fun _ _ => false;
     import_module := fun name =>
       Raises ModuleNotFoundError ("No module named " ++ name) |}.

(** The caller passed no mapping, or an empty one. *)
Definition empty_config (h : Heap) (config : option nat) : Prop :=
  match config with
  | None => True
  | Some a => deref h a = []
  end.

(** A heap holding one non-empty configuration mapping, at address 0. *)
Definition one_config_heap : Heap := [[("mode", VStr "payment")]].

(** *** Fixtures for the operations *)

(** [str()] on the scalars; the fixtures format nothing else. *)
Definition str_scalar (v : value) : string :=
  match v with
  | VNone => "None"
  | VBool true => "True"
  | VBool false => "False"
  | VInt n => pretty n
  | VStr s => s
  | VList _ => "[]"
  | VDict _ => "{}"
  end.

(** A Proxmox node on which the VM is already stopped: the stop request is
    answered with an error, the delete request with a task id.  The world is
    the log of requests sent. *)
Definition stopped_vm_node (call : HttpCall) : M (list HttpCall) Response :=
  fun log =>
    ((log ++ [call])%list,
     if String.eqb (verb call) "DELETE"
     then Ok {| is_success := true;
                json := Ok (VDict [("data", VStr "UPID:pve:destroy")]);
                text := "" |}
     else Ok {| is_success := false;
                json := Ok (VDict [("errors", VStr "VM 100 not running")]);
                text := "VM 100 not running" |}).

(** A node that cannot be reached at all. *)
Definition unreachable_node (call : HttpCall) : M (list HttpCall) Response :=
  fun log => ((log ++ [call])%list,
              Err (Raise TransportError "connection refused")).

Definition pve_heap : Heap := [[("host", VStr "pve.example"); ("node", VStr "pve")]].
Definition pve_instance : Instance :=
  {| inst_class := Proxmox.class; _config := 0%nat |}.
Definition vm100 : Service :=
  {| id := 7; service_config := Returns (VDict [("vmid", VInt 100)]) |}.

(** A service as the ORM model declares it: the class has no
    [service_config] column, so reading the attribute raises. *)
Definition bare_service : Service :=
  {| id := 7;
     service_config :=
       Raises AttributeError
         "'Service' object has no attribute 'service_config'" |}.

(** A gateway whose class body defines no [refund]. *)
Definition cash_gateway (World Transaction : Type)
  : GatewayClass World Transaction :=
  {| gateway_class :=
       Build_ExtClass "Cash" GatewayExtension Inherits
         (fun _ _ => Ok (VDict [("name", VStr "Cash")]))
         (fun _ _ _ => Ok (VList []));
     own_refund := None |}.

(** A keyed digest, a UTF-8 decoder that accepts everything and a JSON
    reader that knows one document, standing in for the libraries. *)
Definition toy_hmac (key msg : string) : string := key ++ ":" ++ msg.
Definition toy_decode (b : string) : result string := Ok b.
Definition quoted (s : string) : string :=
  let dq := String (ascii_of_nat 34) EmptyString in dq ++ s ++ dq.
Definition checkout_event : string :=
  "{" ++ quoted "type" ++ ": " ++ quoted "checkout.session.completed" ++ "}".
Definition toy_json_loads (b : string) : result value :=
  if String.eqb b checkout_event
  then Ok (VDict [("type", VStr "checkout.session.completed")])
  else Err (Raise JSONDecodeError "Expecting value").

(** A forged event: no signature header at all. *)
Definition forged_request : WebhookRequest :=
  {| request_headers := []; body := checkout_event |}.

(** A header whose second item has no equals sign. *)
Definition garbled_request : WebhookRequest :=
  {| request_headers := [("Stripe-Signature", "t=1700000000,v1")];
     body := checkout_event |}.

(** The same event, signed with the secret [whsec] at time 1700000000. *)
Definition signed_request : WebhookRequest :=
  {| request_headers :=
       [("Stripe-Signature",
         "t=1700000000,v1=" ++ toy_hmac "whsec" ("1700000000." ++ checkout_event))];
     body := checkout_event |}.

Definition no_secret_heap : Heap := [[("secret_key", VStr "sk_test")]].
Definition secret_heap : Heap :=
  [[("secret_key", VStr "sk_test"); ("webhook_secret", VStr "whsec")]].

Definition stripe_instance : Instance :=
  {| inst_class := Stripe.class; _config := 0%nat |}.

(** The package a contract's extensions live in. *)
Definition category_of (b : BaseClass) : string :=
  match b with
  | ServerExtension => "servers"
  | GatewayExtension => "gateways"
  | OtherExtension => "others"
  | BaseExtension => ""
  end.

(** The manager after discovery over the shipped tree. *)
Definition shipped_manager : ExtensionManager :=
  self (load_extensions shipped_fs boot).1.

(** A gateways directory with everything discovery has to get past: a
    cache directory, a plain file, a package whose module is missing, a
    module without an extension class, and two directories whose names
    differ in case only. *)
Definition messy_fs : FileSystem :=
  {| path_exists := fun category => String.eqb category "gateways";
     listdir := fun _ =>
       Returns ["__pycache__"; "README.md"; "Stripe"; "Missing"; "Helpers";
                "STRIPE"];
     isdir := fun _ item => negb (String.eqb item "README.md");
     import_module := fun name =>
       if String.eqb name "app.extensions.gateways.Stripe.stripe"
       then Returns [("GatewayExtension", AttrBase GatewayExtension);
                     ("Stripe", AttrExt Stripe.class)]
       else if String.eqb name "app.extensions.gateways.STRIPE.stripe"
       then Returns [("Proxmox", AttrExt Proxmox.class)]
       else if String.eqb name "app.extensions.gateways.Helpers.helpers"
       then Returns [("Any", AttrType); ("httpx", AttrObject)]
       else Raises ModuleNotFoundError ("No module named " ++ name) |}.

(** *** Vocabulary of the further properties *)

(** The module [_load_category] imports for a directory. *)
Definition module_name (category item : string) : string :=
  "app.extensions." ++ category ++ "." ++ item ++ "." ++ lower item.

(** A directory that discovery keeps and whose module shows a class. *)
Definition loadable (fs : FileSystem) (category item : string)
    (cls : ExtClass) : Prop :=
  category ∈ categories /\
  path_exists fs category = true /\
  (exists items, listdir fs category = Returns items /\ item ∈ items) /\
  String.prefix "__" item = false /\
  isdir fs category item = true /\
  exists attrs,
    import_module fs (module_name category item) = Returns attrs /\
    find_extension_class attrs = Some cls.

(** Every entry of the index stems from a loadable directory. *)
Definition sound (fs : FileSystem) (st : Runtime) : Prop :=
  forall c k cls, dict_get (index st c) k = Some cls ->
    exists item, k = lower item /\ loadable fs c item cls.

(** The character occurs in the string. *)
Fixpoint contains (c : ascii) (s : string) : bool :=
  match s with
  | EmptyString => false
  | String c' s' => Ascii.eqb c' c || contains c s'
  end.

(** The name is in the index of the category. *)
Definition listed (c k : string) (st : Runtime) : Prop :=
  is_Some (dict_get (index st c) k).

(** The cluster hands out id 105 and creates the VM. *)
Definition cluster_node (call : HttpCall) : M (list HttpCall) Response :=
  fun log =>
    ((log ++ [call])%list,
     Ok {| is_success := true;
           json := Ok (VDict [("data",
                               if String.eqb (verb call) "GET"
                               then VInt 105 else VStr "UPID:pve:create")]);
           text := "" |}).

(** [title()] on a single ASCII word, which is all the fixtures pass. *)
Definition title_word (s : string) : string :=
  match s with
  | EmptyString => EmptyString
  | String c s' => String (upper_char c) (lower s')
  end.

(** A configured Discord extension and a registration event. *)
Definition discord_heap : Heap :=
  [[("webhook_url", VStr "https://discord.example/api/webhooks/1")]].
Definition discord_instance : Instance :=
  {| inst_class := DiscordNotifications.class; _config := 0%nat |}.
Definition new_user_event : list (string * value) :=
  [("event", VStr "new_user");
   ("data", VDict [("name", VStr "Ada"); ("email", VStr "ada@example.org");
                   ("id", VInt 3)])].

(** * Properties *)

Local Open Scope list_scope.

(** ** Dicts *)

Section DictFacts.
Context {V : Type}.
Implicit Types (d : list (string * V)) (k : string) (v : V).

Lemma dict_get_set_eq d k v : dict_get (dict_set k v d) k = Some v.
Proof.
  induction d as [|[k' v'] d IH]; simpl.
  - by rewrite String.eqb_refl.
  - destruct (String.eqb k' k) eqn:E; simpl; rewrite E; auto.
Qed.

Lemma dict_get_set_ne d k k' v :
  k <> k' -> dict_get (dict_set k v d) k' = dict_get d k'.
Proof.
  intros Hne. induction d as [|[k0 v0] d IH]; simpl.
  - apply String.eqb_neq in Hne. by rewrite Hne.
  - destruct (String.eqb k0 k) eqn:E; simpl.
    + apply String.eqb_eq in E. subst k0.
      apply String.eqb_neq in Hne. by rewrite Hne.
    + by rewrite IH.
Qed.

Lemma dict_keys_set_present d k v :
  is_Some (dict_get d k) -> dict_keys (dict_set k v d) = dict_keys d.
Proof.
  induction d as [|[k0 v0] d IH]; simpl; intros [x Hx]; [done|].
  destruct (String.eqb k0 k) eqn:E; simpl; [done|].
  f_equal. apply IH. eauto.
Qed.

Lemma dict_get_None_keys d k : dict_get d k = None <-> k ∉ dict_keys d.
Proof.
  induction d as [|[k0 v0] d IH]; simpl.
  - split; [intros _; apply not_elem_of_nil | done].
  - destruct (String.eqb k0 k) eqn:E.
    + apply String.eqb_eq in E. subst. split; [done|].
      intros H. exfalso. apply H. left.
    + apply String.eqb_neq in E. rewrite IH. rewrite not_elem_of_cons.
      split; [by intros | by intros [_ ?]].
Qed.

Lemma dict_keys_set_absent d k v :
  dict_get d k = None -> dict_keys (dict_set k v d) = (dict_keys d ++ [k])%list.
Proof.
  induction d as [|[k0 v0] d IH]; simpl; [done|].
  destruct (String.eqb k0 k) eqn:E; [done|]. intros H. simpl.
  f_equal. by apply IH.
Qed.

(** Assignment never duplicates a key. *)
Lemma dict_set_NoDup d k v :
  NoDup (dict_keys d) -> NoDup (dict_keys (dict_set k v d)).
Proof.
  intros Hd. destruct (dict_get d k) eqn:E.
  - rewrite dict_keys_set_present; eauto.
  - rewrite dict_keys_set_absent by done.
    apply NoDup_app. split_and!; [done| |apply NoDup_singleton].
    intros x Hx Hx'. apply list_elem_of_singleton in Hx'. subst x.
    by apply dict_get_None_keys in E.
Qed.
End DictFacts.

Section DictForall.
Context {V : Type} (P : V -> Prop).

Lemma dict_set_Forall (d : list (string * V)) k v :
  Forall (fun kv => P kv.2) d -> P v ->
  Forall (fun kv => P kv.2) (dict_set k v d).
Proof.
  intros Hd Hv. induction Hd as [|[k0 v0] d H0 Hd IH]; simpl.
  - by constructor.
  - destruct (String.eqb k0 k); constructor; auto.
Qed.

Lemma dict_get_Forall (d : list (string * V)) k v :
  Forall (fun kv => P kv.2) d -> dict_get d k = Some v -> P v.
Proof.
  intros Hd. induction Hd as [|[k0 v0] d H0 Hd IH]; simpl; [done|].
  destruct (String.eqb k0 k); [|done]. by intros [= <-].
Qed.
End DictForall.

(** ** The loader *)

Lemma well_formed_init : well_formed ExtensionManager__init__.
Proof.
  split; [done|]. repeat constructor; simpl; apply NoDup_nil_2.
Qed.

Lemma for_each_inv {A} (P : Runtime -> Prop) (Q : exn -> Prop)
    (body : A -> R unit) (l : list A) :
  (forall x st st' r, P st -> body x st = (st', r) ->
     P st' /\ forall e, r = Err e -> Q e) ->
  forall st st' r, P st -> for_each l body st = (st', r) ->
    P st' /\ forall e, r = Err e -> Q e.
Proof.
  intros Hbody. induction l as [|x l IH]; simpl; intros st st' r HP.
  - intros [= <- <-]. split; [done|]. by intros e [=].
  - unfold bind. destruct (body x st) as [st1 [[]|e1]] eqn:Hx.
    + apply IH. by eapply Hbody.
    + intros [= <- <-]. by eapply Hbody.
Qed.

Lemma register_within W h sc b category key attr st st' r :
  within W h sc b st -> register category key attr st = (st', r) ->
  within W h sc b st' /\ forall e, r = Err e -> builtin e.
Proof.
  intros (Hh & Hs & Hl & Hwf). unfold register, bind, get, set_self, raise.
  destruct (dict_get (_extensions (self st)) category) as [exts|] eqn:Hc.
  - intros [= <- <-]. split; [|by intros e [=]].
    unfold within; simpl. split_and!; auto.
    intros HW. destruct (Hwf HW) as [Hk Hn]. split; simpl.
    + rewrite dict_keys_set_present; eauto.
    + apply (dict_set_Forall (fun d => NoDup (dict_keys d))); [done|].
      apply dict_set_NoDup.
      by eapply (dict_get_Forall (fun d => NoDup (dict_keys d))).
  - intros [= <- <-]. split; [done|].
    by intros e [= <-].
Qed.

Section LoaderFacts.
Variable fs : FileSystem.

Lemma load_item_within W h sc b category item st st' r :
  within W h sc b st -> load_item fs category item st = (st', r) ->
  within W h sc b st' /\ forall e, r = Err e -> builtin e.
Proof.
  intros Hw. unfold load_item, bind, lift.
  destruct (import_module fs _) as [attrs|c msg]; simpl.
  - destruct (find_extension_class attrs).
    + by apply register_within.
    + intros [= <- <-]. split; [done|]. by intros e [=].
  - intros [= <- <-]. split; [done|]. by intros e [= <-].
Qed.

Lemma _load_category_within W h sc b category st st' r :
  within W h sc b st -> _load_category fs category st = (st', r) ->
  within W h (sc ++ [category]) b st' /\ forall e, r = Err e -> builtin e.
Proof.
  intros (Hh & Hs & Hl & Hwf). unfold _load_category, bind at 1.
  unfold count_scan at 1.
  set (st0 := {| self := self st; heap := heap st;
                 scans := (scans st ++ [category])%list |}).
  assert (within W h (sc ++ [category]) b st0) as Hw0.
  { subst st0. unfold within; simpl. by rewrite Hs. }
  destruct (negb (path_exists fs category)).
  { intros [= <- <-]. split; [done|]. by intros e [=]. }
  unfold bind, lift.
  destruct (listdir fs category) as [items|c msg]; simpl.
  - apply for_each_inv; [|done].
    intros item s s' r' Hws.
    destruct (String.prefix "__" item || negb (isdir fs category item)).
    { intros [= <- <-]. split; [done|]. by intros e [=]. }
    unfold try_except.
    destruct (load_item fs category item s) as [s1 [[]|e1]] eqn:Hitem.
    + intros [= <- <-]. split; [|by intros e [=]].
      by eapply load_item_within.
    + destruct (load_item_within _ _ _ _ _ _ _ _ _ Hws Hitem) as [Hw1 He1].
      destruct (_ || _).
      * intros [= <- <-]. split; [done|]. by intros e [=].
      * intros [= <- <-]. split; [done|]. intros e [= <-]. by apply He1.
  - intros [= <- <-]. split; [done|]. by intros e [= <-].
Qed.
End LoaderFacts.

Section LoadFacts.
Variable fs : FileSystem.

Lemma load_extensions_loaded st :
  _loaded (self st) = true -> load_extensions fs st = (st, Ok tt).
Proof. intros H. unfold load_extensions, bind, get. by rewrite H. Qed.

(** One discovery pass from a registry not yet loaded. *)
Lemma load_extensions_pass W h sc st st' r :
  within W h sc false st -> load_extensions fs st = (st', r) ->
  (r = Ok tt ->
     within W h (sc ++ ["servers"; "gateways"; "others"]) true st') /\
  (forall e, r = Err e ->
     builtin e /\ exists sc', within W h sc' false st').
Proof.
  intros Hw. pose proof Hw as (_ & _ & Hl & _).
  unfold load_extensions, bind at 1. unfold get at 1. rewrite Hl.
  unfold bind at 1.
  destruct (_load_category fs "servers" st) as [s1 [[]|e1]] eqn:H1;
    destruct (_load_category_within _ _ _ _ _ _ _ _ _ Hw H1) as [Hw1 He1].
  2:{ intros [= <- <-]. split; [done|]. intros e [= <-]. eauto. }
  unfold bind at 1.
  destruct (_load_category fs "gateways" s1) as [s2 [[]|e2]] eqn:H2;
    destruct (_load_category_within _ _ _ _ _ _ _ _ _ Hw1 H2) as [Hw2 He2].
  2:{ intros [= <- <-]. split; [done|]. intros e [= <-]. eauto. }
  unfold bind at 1.
  destruct (_load_category fs "others" s2) as [s3 [[]|e3]] eqn:H3;
    destruct (_load_category_within _ _ _ _ _ _ _ _ _ Hw2 H3) as [Hw3 He3].
  2:{ intros [= <- <-]. split; [done|]. intros e [= <-]. eauto. }
  unfold bind, get, set_self. intros [= <- <-]. split; [|by intros e [=]].
  intros _. destruct Hw3 as (Hh & Hs & _ & Hwf).
  unfold within; simpl. rewrite Hs, <- !app_assoc. done.
Qed.

(** Whatever the flag: a call allocates nothing, keeps the index
    well-formed, raises built-in exceptions only, and leaves the registry
    loaded when it returns. *)
Lemma load_extensions_frame st st' r :
  load_extensions fs st = (st', r) ->
  heap st' = heap st /\
  (well_formed (self st) -> well_formed (self st')) /\
  (r = Ok tt -> _loaded (self st') = true) /\
  (forall e, r = Err e -> builtin e).
Proof.
  destruct (_loaded (self st)) eqn:Hl.
  - rewrite load_extensions_loaded by done. intros [= <- <-].
    split_and!; auto. by intros e [=].
  - intros Hrun.
    assert (within (well_formed (self st)) (heap st) (scans st) false st)
      as Hw by done.
    destruct (load_extensions_pass _ _ _ _ _ _ Hw Hrun) as [Hok Herr].
    destruct r as [[]|e].
    + destruct (Hok eq_refl) as (? & ? & ? & ?).
      split_and!; [done|done|done|by intros e [=]].
    + destruct (Herr e eq_refl) as (? & sc' & ? & ? & ? & ?).
      split_and!; [done|done|done|by intros e' [= <-]].
Qed.

(** Calls on a loaded registry change nothing. *)
Lemma after_calls_loaded n st :
  _loaded (self st) = true -> after_calls fs n st = st.
Proof.
  intros H. induction n as [|n IH]; simpl; [done|].
  by rewrite load_extensions_loaded.
Qed.
End LoadFacts.

(** ** Discovery is performed once *)

(** C1, as stated, fails: when an exception escapes a discovery pass the
    registry stays unloaded, and the next call scans the first categories
    again.  Here two calls scan [servers] twice. *)
Lemma load_extensions_rescans_after_escape :
  ~ (forall fs N, (1 <= N)%nat ->
       scan_count (after_calls fs N boot) "servers" = 1%nat).
Proof.
  intros H. specialize (H broken_fs 2%nat ltac:(lia)).
  vm_compute in H. discriminate.
Qed.

(** C1 (amended): for every N >= 1 sequential calls of [load_extensions] on
    one registry, the first of which returns, the state after the N calls is
    the state after the first: each category was scanned exactly once when
    the registry was not loaded before, and the later calls neither scan nor
    touch the name index, whose names stay free of duplicates. *)
Theorem load_extensions_idempotent fs st st1 N :
  load_extensions fs st = (st1, Ok tt) -> (1 <= N)%nat ->
  after_calls fs N st = st1 /\
  (_loaded (self st) = false ->
     scans st1 = (scans st ++ ["servers"; "gateways"; "others"])%list) /\
  load_extensions fs st1 = (st1, Ok tt) /\
  (well_formed (self st) -> well_formed (self st1)).
Proof.
  intros Hrun HN.
  destruct (load_extensions_frame _ _ _ _ Hrun) as (_ & Hwf & Hl & _).
  specialize (Hl eq_refl). split_and!.
  - destruct N as [|N]; [lia|]. simpl. rewrite Hrun. simpl.
    by apply after_calls_loaded.
  - intros Hfresh.
    assert (within (well_formed (self st)) (heap st) (scans st) false st)
      as Hw by done.
    destruct (load_extensions_pass _ _ _ _ _ _ _ Hw Hrun) as [Hok _].
    by destruct (Hok eq_refl) as (_ & ? & _).
  - by apply load_extensions_loaded.
  - done.
Qed.

Lemma load_extensions_idempotent_shipped :
  let st1 := (load_extensions shipped_fs boot).1 in
  after_calls shipped_fs 3 boot = st1 /\
  scans st1 = ["servers"; "gateways"; "others"] /\
  dict_keys (index st1 "gateways") = ["stripe"].
Proof.
  assert (load_extensions shipped_fs boot
          = ((load_extensions shipped_fs boot).1, Ok tt)) as Hrun
    by (vm_compute; reflexivity).
  destruct (load_extensions_idempotent shipped_fs boot _ 3 Hrun ltac:(lia))
    as (H3 & Hs & _ & _).
  split_and!; [exact H3 | exact (Hs eq_refl) | vm_compute; reflexivity].
Defined.

(** ** Lookup *)

Section LookupFacts.
Variable fs : FileSystem.

Lemma or_empty_run config st :
  or_empty config st =
  (with_heap st (or_empty_heap config (heap st)).1,
   Ok (or_empty_heap config (heap st)).2).
Proof.
  destruct st as [m h sc].
  unfold or_empty, or_empty_heap, bind, get, new_dict, ret, with_heap.
  destruct config as [a|]; cbn; [|done].
  by destruct (deref h a).
Qed.

(** Both entry points load on demand; on a loaded registry that is a
    no-op, so either way the call starts with [load_extensions]. *)
Lemma ensure_loaded st :
  (if negb (_loaded (self st)) then load_extensions fs else ret tt) st
  = load_extensions fs st.
Proof.
  destruct (_loaded (self st)) eqn:Hl; simpl; [|done].
  by rewrite load_extensions_loaded.
Qed.

Lemma get_extension_run category name config st :
  get_extension fs category name config st =
  match load_extensions fs st with
  | (st1, Ok _) =>
      match dict_get (index st1 category) (lower name) with
      | Some cls =>
          (with_heap st1 (construct cls config (heap st1)).1,
           match (construct cls config (heap st1)).2 with
           | Ok inst => Ok (Some inst)
           | Err e => Err e
           end)
      | None => (st1, Ok None)
      end
  | (st1, Err e) => (st1, Err e)
  end.
Proof.
  unfold get_extension, bind at 1. unfold get at 1.
  unfold bind at 1. rewrite ensure_loaded.
  destruct (load_extensions fs st) as [st1 [[]|e]]; [|done].
  unfold bind at 1. unfold get at 1. unfold index.
  destruct (dict_get _ (lower name)) as [cls|]; [|done].
  unfold bind at 1. rewrite or_empty_run. unfold construct, instantiate.
  destruct (or_empty_heap config (heap st1)) as [h1 a1]. simpl.
  destruct (construction cls) as [|msg|init].
  - unfold BaseExtension__init__, bind, ret. rewrite or_empty_run. simpl.
    by destruct (deref h1 a1).
  - done.
  - unfold bind, get, new_dicts, lift, ret. simpl.
    destruct (init h1 a1) as [new [a|c msg]]; simpl; by destruct st1.
Qed.

(** A concrete class with the inherited constructor is bound to the
    mapping that two rounds of [config or {}] leave. *)
Lemma construct_inherits cls config (h : Heap) :
  construction cls = Inherits ->
  construct cls config h
  = ((bind_config config h).1,
     Ok {| inst_class := cls; _config := (bind_config config h).2 |}).
Proof.
  intros Hc. unfold construct, bind_config. rewrite Hc.
  destruct (or_empty_heap config h) as [h1 a1].
  by destruct (or_empty_heap (Some a1) h1).
Qed.
End LookupFacts.

(** C2: when the pair (c, lower n) is not in the index that discovery
    leaves, [get_extension c n] returns [None] and raises nothing, and the
    metadata and config endpoints answer 404. *)
Theorem get_extension_absent fs st st1 category name config :
  load_extensions fs st = (st1, Ok tt) ->
  dict_get (index st1 category) (lower name) = None ->
  get_extension fs category name config st = (st1, Ok None) /\
  get_extension_metadata fs category name st
    = (st1, Err (not_found category name)) /\
  get_extension_config fs category name st
    = (st1, Err (not_found category name)).
Proof.
  intros Hrun Habs.
  assert (forall cfg, get_extension fs category name cfg st = (st1, Ok None))
    as Hget.
  { intros cfg. rewrite get_extension_run, Hrun. by rewrite Habs. }
  split_and!; [done| |].
  - unfold get_extension_metadata, bind. by rewrite Hget.
  - unfold get_extension_config, bind. by rewrite Hget.
Qed.

Lemma get_extension_absent_shipped :
  let st1 := (load_extensions shipped_fs boot).1 in
  get_extension shipped_fs "gateways" "PayPal" None boot = (st1, Ok None) /\
  get_extension_metadata shipped_fs "gateways" "PayPal" boot
    = (st1, Err (not_found "gateways" "PayPal")) /\
  get_extension_config shipped_fs "gateways" "PayPal" boot
    = (st1, Err (not_found "gateways" "PayPal")).
Proof.
  apply (get_extension_absent shipped_fs boot _ "gateways" "PayPal" None);
    vm_compute; reflexivity.
Defined.

(** The registration step of [_load_category] registers, in this sense. *)
Lemma register_registered category s cls st st' :
  register category (lower s) cls st = (st', Ok tt) ->
  registered st' category s cls.
Proof.
  unfold register, bind, get, set_self, raise, registered, index.
  destruct (dict_get (_extensions (self st)) category) as [exts|] eqn:Hc;
    [|done].
  intros [= <-]. simpl. unfold dict_get_default.
  by rewrite !dict_get_set_eq.
Qed.

(** The body of the [try] in [_load_category] files the class it finds. *)
Lemma load_item_registers fs category s attrs cls st :
  is_Some (dict_get (_extensions (self st)) category) ->
  import_module fs
    ("app.extensions." +:+ category +:+ "." +:+ s +:+ "." +:+ lower s)
    = Returns attrs ->
  find_extension_class attrs = Some cls ->
  exists st', load_item fs category s st = (st', Ok tt) /\
              registered st' category s cls.
Proof.
  intros [exts Hc] Himp Hfind. unfold load_item, bind, lift.
  rewrite Himp. simpl. rewrite Hfind.
  assert (exists st', register category (lower s) cls st = (st', Ok tt))
    as [st' Hreg].
  { unfold register, bind, get, set_self. rewrite Hc. eauto. }
  exists st'. split; [done|]. by eapply register_registered.
Qed.

(** Discovery over a directory with entries to skip: one name, filed
    once, held by the class found last. *)
Example load_extensions_messy :
  let st1 := (load_extensions messy_fs boot).1 in
  listing st1 = [("servers", []); ("gateways", ["stripe"]); ("others", [])] /\
  registered st1 "gateways" "Stripe" Proxmox.class /\
  scans st1 = ["servers"; "gateways"; "others"].
Proof. vm_compute. done. Qed.

(** C3, as stated, fails: discovery registers every proper subclass of
    [BaseExtension], also one that still has abstract methods; the lookup
    finds it under any spelling of the name, and calling it raises
    [TypeError] instead of returning an instance. *)
Lemma get_extension_abstract_class_raises :
  ~ (forall fs st st1 category s n config cls,
       load_extensions fs st = (st1, Ok tt) ->
       registered st1 category s cls ->
       lower n = lower s ->
       exists st2 inst,
         get_extension fs category n config st = (st2, Ok (Some inst)) /\
         inst_class inst = cls).
Proof.
  intros H.
  destruct (H partial_fs boot (load_extensions partial_fs boot).1 "gateways"
              "Partial" "PARTIAL" None partial_class
              ltac:(vm_compute; reflexivity) ltac:(vm_compute; reflexivity)
              ltac:(vm_compute; reflexivity)) as (st2 & inst & Hget & _).
  vm_compute in Hget. discriminate.
Qed.

(** C3 (amended): once discovery has completed, the class registered
    under [s] in a category is found by every query name [n] with
    [lower n = lower s]: [get_extension] calls that class and returns the
    instance it constructs or raises what the call raises.  For a concrete
    class with the inherited constructor it returns an instance of the
    class; for a class with abstract methods left it raises the
    [TypeError] of the call. *)
Theorem get_extension_case_insensitive fs st st1 category s n config cls :
  load_extensions fs st = (st1, Ok tt) ->
  registered st1 category s cls ->
  lower n = lower s ->
  (exists st2,
     get_extension fs category n config st
     = (st2, match (construct cls config (heap st1)).2 with
             | Ok inst => Ok (Some inst)
             | Err e => Err e
             end)) /\
  (construction cls = Inherits ->
     exists st2 inst,
       get_extension fs category n config st = (st2, Ok (Some inst)) /\
       inst_class inst = cls) /\
  (forall msg, construction cls = Abstract msg ->
     exists st2,
       get_extension fs category n config st
       = (st2, Err (Raise TypeError msg))).
Proof.
  intros Hrun Hreg Hn. rewrite get_extension_run, Hrun, Hn.
  unfold registered in Hreg. rewrite Hreg. split_and!.
  - eauto.
  - intros Hc. rewrite construct_inherits by done. simpl. eauto.
  - intros msg Hc. unfold construct. rewrite Hc.
    destruct (or_empty_heap config (heap st1)). simpl. eauto.
Qed.

Lemma get_extension_case_insensitive_stripe :
  exists st2 inst,
    get_extension shipped_fs "gateways" "STRIPE" None boot
      = (st2, Ok (Some inst)) /\
    inst_class inst = Stripe.class.
Proof.
  destruct (get_extension_case_insensitive shipped_fs boot
              (load_extensions shipped_fs boot).1 "gateways" "Stripe"
              "STRIPE" None Stripe.class
              ltac:(vm_compute; reflexivity) ltac:(vm_compute; reflexivity)
              ltac:(vm_compute; reflexivity)) as (_ & Hconcrete & _).
  apply Hconcrete. reflexivity.
Defined.

(** The abstract class is registered, listed, and refuses to be called. *)
Example get_extension_partial :
  let st1 := (load_extensions partial_fs boot).1 in
  registered st1 "gateways" "Partial" partial_class /\
  (list_extensions partial_fs (Some "gateways") boot).2
    = Ok [("gateways", ["partial"])] /\
  (get_extension partial_fs "gateways" "partial" None boot).2
    = Err (Raise TypeError
             "Can't instantiate abstract class Partial with abstract methods pay, webhook").
Proof. vm_compute. done. Qed.

Example get_extension_stripe_lowercase :
  (get_extension shipped_fs "gateways" "stripe" None boot).2
  = Ok (Some {| inst_class := Stripe.class; _config := 1%nat |}).
Proof. vm_compute. reflexivity. Qed.

(** ** Listing *)

Lemma dict_get_map_keys {V W} (f : V -> W) (d : list (string * V)) k :
  dict_get (map (fun '(c, v) => (c, f v)) d) k = f <$> dict_get d k.
Proof.
  induction d as [|[k0 v0] d IH]; simpl; [done|].
  by destruct (String.eqb k0 k).
Qed.

Lemma dict_keys_map {V W} (f : V -> W) (d : list (string * V)) :
  dict_keys (map (fun '(c, v) => (c, f v)) d) = dict_keys d.
Proof.
  induction d as [|[k0 v0] d IH]; simpl; [done|]. by f_equal.
Qed.

Lemma list_extensions_run fs category st :
  list_extensions fs category st =
  match load_extensions fs st with
  | (st1, Ok _) =>
      (st1, Ok match category with
               | Some c =>
                   if negb (String.eqb c "")
                   then [(c, dict_keys (index st1 c))]
                   else listing st1
               | None => listing st1
               end)
  | (st1, Err e) => (st1, Err e)
  end.
Proof.
  unfold list_extensions, bind at 1. unfold get at 1.
  unfold bind at 1. rewrite ensure_loaded.
  destruct (load_extensions fs st) as [st1 [[]|e]]; [|done].
  unfold bind, get, ret, listing, index.
  destruct category as [c|]; [|done]. by destruct (negb _).
Qed.

Lemma listing_well_formed st :
  well_formed (self st) ->
  dict_keys (listing st) = categories /\
  forall c, c ∈ categories ->
    dict_get (listing st) c = Some (dict_keys (index st c)).
Proof.
  intros [Hk _]. unfold listing. rewrite dict_keys_map. split; [done|].
  intros c Hc. rewrite dict_get_map_keys. unfold index, dict_get_default.
  destruct (dict_get (_extensions (self st)) c) eqn:E; [done|].
  apply dict_get_None_keys in E. by rewrite Hk in E.
Qed.

Lemma index_unrecognized st c :
  well_formed (self st) -> c ∉ categories -> index st c = [].
Proof.
  intros [Hk _] Hc. unfold index, dict_get_default.
  destruct (dict_get (_extensions (self st)) c) eqn:E; [|done].
  assert (dict_get (_extensions (self st)) c <> None) as Hn by congruence.
  rewrite dict_get_None_keys, Hk in Hn. by destruct Hn.
Qed.

(** C9, as stated, fails: the filter [''] is tested for truth, counts as no
    filter, and yields all three categories instead of a single entry. *)
Lemma list_extensions_empty_filter_lists_all :
  ~ (forall fs category st, exists st' names,
       list_extensions fs (Some category) st = (st', Ok [(category, names)])).
Proof.
  intros H. destruct (H shipped_fs "" boot) as (st' & names & Heq).
  vm_compute in Heq. discriminate.
Qed.

(** C9 (amended): once discovery completes, [list_extensions] without a
    filter returns a mapping whose keys are exactly the three categories,
    each mapped to the names discovered in it (an empty sequence when there
    are none); with a non-empty filter it returns the single-entry mapping
    for that category. *)
Theorem list_extensions_shape fs st st1 :
  well_formed (self st) ->
  load_extensions fs st = (st1, Ok tt) ->
  (exists m,
     list_extensions fs None st = (st1, Ok m) /\
     dict_keys m = ["servers"; "gateways"; "others"] /\
     forall c, c ∈ ["servers"; "gateways"; "others"] ->
       dict_get m c = Some (dict_keys (index st1 c))) /\
  (forall c, c <> "" ->
     list_extensions fs (Some c) st = (st1, Ok [(c, dict_keys (index st1 c))])).
Proof.
  intros Hwf Hrun.
  destruct (load_extensions_frame _ _ _ _ Hrun) as (_ & Hwf1 & _ & _).
  destruct (listing_well_formed st1 (Hwf1 Hwf)) as [Hk Hg]. split.
  - exists (listing st1). rewrite list_extensions_run, Hrun. done.
  - intros c Hc. rewrite list_extensions_run, Hrun.
    apply String.eqb_neq in Hc. by rewrite Hc.
Qed.

Lemma list_extensions_shape_empty :
  (exists m,
     list_extensions empty_fs None boot
       = ((load_extensions empty_fs boot).1, Ok m) /\
     dict_keys m = ["servers"; "gateways"; "others"] /\
     forall c, c ∈ ["servers"; "gateways"; "others"] ->
       dict_get m c
       = Some (dict_keys (index (load_extensions empty_fs boot).1 c))) /\
  (forall c, c <> "" ->
     list_extensions empty_fs (Some c) boot
     = ((load_extensions empty_fs boot).1,
        Ok [(c, dict_keys (index (load_extensions empty_fs boot).1 c))])).
Proof.
  apply (list_extensions_shape empty_fs boot).
  - apply well_formed_init.
  - vm_compute. reflexivity.
Defined.

Example list_extensions_no_extension :
  (list_extensions empty_fs None boot).2
  = Ok [("servers", []); ("gateways", []); ("others", [])].
Proof. vm_compute. reflexivity. Qed.

Lemma empty_string_unrecognized : "" ∉ categories.
Proof.
  intros H. apply list_elem_of_In in H. simpl in H.
  by destruct H as [|[|[|]]].
Qed.

(** C4, as stated, fails at the registry layer: [''] is outside the
    recognized set, yet [list_extensions('')] answers with the mapping of
    all three categories, not with the single entry [{'': []}]. *)
Lemma list_extensions_unrecognized_empty_string :
  ~ (forall fs category st, category ∉ categories ->
       exists st',
         list_extensions fs (Some category) st = (st', Ok [(category, [])])).
Proof.
  intros H.
  destruct (H shipped_fs "" boot) as (st' & Heq).
  - apply empty_string_unrecognized.
  - vm_compute in Heq. discriminate.
Qed.

(** C4 (amended): the category endpoint fails with the 400 exactly when the
    category is outside the recognized set, and for a recognized category it
    returns the registry's single-entry listing once discovery completes.
    At the registry layer an unrecognized category that is not the empty
    string does not fail and yields the single entry from that category to
    an empty sequence; the empty string counts as no filter. *)
Theorem list_extensions_by_category_validates fs st st1 :
  well_formed (self st) ->
  load_extensions fs st = (st1, Ok tt) ->
  (forall c st0,
     (exists st' e, list_extensions_by_category fs c st0 = (st', Err e) /\
                    invalid_category e)
     <-> c ∉ categories) /\
  (forall c, c ∈ categories ->
     list_extensions_by_category fs c st
     = (st1, Ok [(c, dict_keys (index st1 c))])) /\
  (forall c, c ∉ categories -> c <> "" ->
     list_extensions fs (Some c) st = (st1, Ok [(c, [])])) /\
  list_extensions fs (Some "") st = list_extensions fs None st.
Proof.
  intros Hwf Hrun.
  destruct (load_extensions_frame _ _ _ _ Hrun) as (_ & Hwf1 & _ & _).
  split_and!.
  - intros c st0. unfold list_extensions_by_category. fold categories.
    split.
    + intros (st' & e & Heq & d & ->) Hin.
      rewrite bool_decide_eq_true_2 in Heq by done. simpl in Heq.
      rewrite list_extensions_run in Heq.
      destruct (load_extensions fs st0) as [s0 [[]|e0]] eqn:Hrun0; [done|].
      injection Heq as _ ->.
      destruct (load_extensions_frame _ _ _ _ Hrun0) as (_ & _ & _ & Hb).
      exact (Hb _ eq_refl).
    + intros Hout. rewrite bool_decide_eq_false_2 by done. simpl.
      eexists st0, _. split; [reflexivity|]. by eexists.
  - intros c Hc. unfold list_extensions_by_category. fold categories.
    rewrite bool_decide_eq_true_2 by done. simpl.
    rewrite list_extensions_run, Hrun.
    assert (c <> "") as Hne
      by (intros ->; by apply empty_string_unrecognized).
    apply String.eqb_neq in Hne. by rewrite Hne.
  - intros c Hc Hne. rewrite list_extensions_run, Hrun.
    apply String.eqb_neq in Hne. rewrite Hne. simpl.
    by rewrite index_unrecognized by auto.
  - by rewrite !list_extensions_run.
Qed.

Lemma list_extensions_by_category_validates_shipped :
  let st1 := (load_extensions shipped_fs boot).1 in
  (forall c st0,
     (exists st' e,
        list_extensions_by_category shipped_fs c st0 = (st', Err e) /\
        invalid_category e)
     <-> c ∉ categories) /\
  (forall c, c ∈ categories ->
     list_extensions_by_category shipped_fs c boot
     = (st1, Ok [(c, dict_keys (index st1 c))])) /\
  (forall c, c ∉ categories -> c <> "" ->
     list_extensions shipped_fs (Some c) boot = (st1, Ok [(c, [])])) /\
  list_extensions shipped_fs (Some "") boot
  = list_extensions shipped_fs None boot.
Proof.
  apply (list_extensions_by_category_validates shipped_fs boot).
  - apply well_formed_init.
  - vm_compute. reflexivity.
Defined.

Example list_extensions_by_category_plugins :
  (list_extensions_by_category shipped_fs "plugins" boot).2
  = Err (HTTPException 400
           "Invalid category. Must be one of: servers, gateways, others").
Proof. vm_compute. reflexivity. Qed.

(** ** Instances and their configuration *)

Lemma deref_app_empty (h : Heap) a :
  deref h a = [] -> deref (h ++ [[]; []]) a = [].
Proof.
  unfold deref. intros H. destruct (decide (a < length h)%nat) as [Hlt|Hge].
  - by rewrite lookup_app_l.
  - rewrite lookup_app_r by lia.
    destruct (a - length h)%nat as [|[|n]]; done.
Qed.

Lemma bind_config_empty h config :
  empty_config h config ->
  bind_config config h = ((h ++ [[]; []])%list, (length h + 1)%nat).
Proof.
  intros He. unfold bind_config.
  assert (or_empty_heap config h = ((h ++ [[]])%list, length h)) as ->.
  { destruct config as [a|]; simpl in *; [|done]. by rewrite He. }
  unfold or_empty_heap, deref.
  rewrite lookup_app_r by lia. rewrite Nat.sub_diag. simpl.
  unfold alloc. rewrite <- app_assoc, length_app. simpl. done.
Qed.

Lemma bind_config_nonempty h a :
  deref h a <> [] -> bind_config (Some a) h = (h, a).
Proof.
  intros Hne. unfold bind_config, or_empty_heap.
  destruct (deref h a) eqn:E; [done|]. by rewrite E.
Qed.

Lemma config_setitem_other h a k v inst key dflt :
  a <> _config inst ->
  config (heap_setitem h a k v) inst key dflt = config h inst key dflt.
Proof.
  intros Hne. unfold config, heap_setitem, deref.
  by rewrite list_lookup_insert_ne.
Qed.

Lemma config_setitem_same h k v inst dflt :
  deref h (_config inst) <> [] ->
  config (heap_setitem h (_config inst) k v) inst k dflt = v.
Proof.
  intros Hne. unfold config, heap_setitem.
  assert (_config inst < length h)%nat as Hlt.
  { apply lookup_lt_is_Some. unfold deref in Hne.
    destruct (h !! _config inst); [eauto|done]. }
  unfold deref at 1. rewrite list_lookup_insert_eq by done. simpl.
  unfold dict_get_default. by rewrite dict_get_set_eq.
Qed.

(** C5, as stated, fails: a non-empty mapping is bound as the object the
    caller passed, so two instances made from it read one and the same
    dict, and an assignment through one view shows in the other. *)
Lemma get_extension_instances_share_config :
  ~ (forall fs category name cfg st st1 i1 st2 i2,
       get_extension fs category name cfg st = (st1, Ok (Some i1)) ->
       get_extension fs category name cfg st1 = (st2, Ok (Some i2)) ->
       forall k v key dflt,
         config (heap_setitem (heap st2) (_config i1) k v) i2 key dflt
         = config (heap st2) i2 key dflt).
Proof.
  intros H.
  pose (st := with_heap boot one_config_heap).
  pose (r1 := get_extension shipped_fs "gateways" "stripe" (Some 0%nat) st).
  pose (r2 := get_extension shipped_fs "gateways" "stripe" (Some 0%nat) r1.1).
  specialize (H shipped_fs "gateways" "stripe" (Some 0%nat) st r1.1
                {| inst_class := Stripe.class; _config := 0%nat |} r2.1
                {| inst_class := Stripe.class; _config := 0%nat |}
                ltac:(vm_compute; reflexivity) ltac:(vm_compute; reflexivity)
                "mode" (VStr "subscription") "mode" VNone).
  vm_compute in H. discriminate.
Qed.

(** C5 (amended): for a pair present after discovery whose class is
    concrete and has the inherited constructor, two calls
    [get_extension(c, n, cfg)] both return an instance.  When [cfg] is
    omitted or empty, each instance is bound to a fresh empty mapping of
    its own, and an assignment to the mapping of one does not change what
    the [config] accessor of the other returns.  When [cfg] is a non-empty
    mapping, both instances are bound to that very mapping object, so an
    assignment through one is read by the other. *)
Theorem get_extension_instances fs st st0 category name cfg cls :
  load_extensions fs st = (st0, Ok tt) ->
  registered st0 category name cls ->
  construction cls = Inherits ->
  exists st1 i1 st2 i2,
    get_extension fs category name cfg st = (st1, Ok (Some i1)) /\
    get_extension fs category name cfg st1 = (st2, Ok (Some i2)) /\
    inst_class i1 = cls /\ inst_class i2 = cls /\
    (empty_config (heap st) cfg ->
       _config i1 <> _config i2 /\
       config (heap st2) i1 = (fun _ dflt => dflt) /\
       forall k v key dflt,
         config (heap_setitem (heap st2) (_config i1) k v) i2 key dflt
         = config (heap st2) i2 key dflt /\
         config (heap_setitem (heap st2) (_config i2) k v) i1 key dflt
         = config (heap st2) i1 key dflt) /\
    (forall a, cfg = Some a -> deref (heap st) a <> [] ->
       _config i1 = a /\ _config i2 = a /\
       forall k v dflt,
         config (heap_setitem (heap st2) (_config i1) k v) i2 k dflt = v).
Proof.
  intros Hrun Hreg Hcons.
  destruct (load_extensions_frame _ _ _ _ Hrun) as (Hh & _ & Hl & _).
  specialize (Hl eq_refl).
  set (b1 := bind_config cfg (heap st0)).
  set (st1 := with_heap st0 b1.1).
  set (b2 := bind_config cfg (heap st1)).
  exists st1, {| inst_class := cls; _config := b1.2 |},
    (with_heap st1 b2.1), {| inst_class := cls; _config := b2.2 |}.
  assert (load_extensions fs st1 = (st1, Ok tt)) as Hrun1
    by (by apply load_extensions_loaded).
  split_and!; try done.
  - rewrite get_extension_run, Hrun. unfold registered in Hreg.
    by rewrite Hreg, construct_inherits.
  - rewrite get_extension_run, Hrun1. unfold registered in Hreg.
    unfold index in *. simpl. by rewrite Hreg, construct_inherits.
  - intros Hempty. rewrite <- Hh in Hempty.
    assert (b1 = (heap st0 ++ [[]; []], (length (heap st0) + 1)%nat)) as E1
      by (by apply bind_config_empty).
    assert (empty_config (heap st1) cfg) as Hempty1.
    { subst st1. simpl. rewrite E1. simpl.
      destruct cfg as [a|]; simpl in *; [|done]. by apply deref_app_empty. }
    assert (b2 = (heap st1 ++ [[]; []], (length (heap st1) + 1)%nat)) as E2
      by (by apply bind_config_empty).
    assert (heap st1 = heap st0 ++ [[]; []]) as Hh1
      by (subst st1; simpl; by rewrite E1).
    simpl. rewrite E1, E2. simpl. rewrite E1. simpl. rewrite length_app.
    simpl. split_and!; [lia| |].
    + unfold config, deref. simpl.
      rewrite lookup_app_l by (rewrite length_app; simpl; lia).
      rewrite lookup_app_r by lia.
      replace (length (heap st0) + 1 - length (heap st0))%nat with 1%nat
        by lia.
      done.
    + intros k v key dflt. split; apply config_setitem_other; simpl; lia.
  - intros a -> Hne. rewrite <- Hh in Hne.
    assert (b1 = (heap st0, a)) as E1 by (by apply bind_config_nonempty).
    assert (heap st1 = heap st0) as Hh1 by (subst st1; simpl; by rewrite E1).
    assert (b2 = (heap st1, a)) as E2.
    { apply bind_config_nonempty. by rewrite Hh1. }
    simpl. rewrite E1, E2. simpl. rewrite E1. simpl.
    split_and!; [done|done|]. intros k v dflt.
    by apply (config_setitem_same (heap st0) k v
                {| inst_class := cls; _config := a |}).
Qed.

Lemma get_extension_instances_stripe :
  (let st := with_heap boot one_config_heap in
   exists st1 i1 st2 i2,
     get_extension shipped_fs "gateways" "stripe" (Some 0%nat) st
       = (st1, Ok (Some i1)) /\
     get_extension shipped_fs "gateways" "stripe" (Some 0%nat) st1
       = (st2, Ok (Some i2)) /\
     _config i1 = 0%nat /\ _config i2 = 0%nat /\
     forall k v dflt,
       config (heap_setitem (heap st2) (_config i1) k v) i2 k dflt = v) /\
  (exists st1 i1 st2 i2,
     get_extension shipped_fs "gateways" "stripe" None boot
       = (st1, Ok (Some i1)) /\
     get_extension shipped_fs "gateways" "stripe" None st1
       = (st2, Ok (Some i2)) /\
     _config i1 <> _config i2 /\
     forall k v key dflt,
       config (heap_setitem (heap st2) (_config i1) k v) i2 key dflt
       = config (heap st2) i2 key dflt /\
       config (heap_setitem (heap st2) (_config i2) k v) i1 key dflt
       = config (heap st2) i1 key dflt).
Proof.
  split.
  - destruct (get_extension_instances shipped_fs
                (with_heap boot one_config_heap)
                (load_extensions shipped_fs
                   (with_heap boot one_config_heap)).1
                "gateways" "stripe" (Some 0%nat) Stripe.class
                ltac:(vm_compute; reflexivity) ltac:(vm_compute; reflexivity)
                eq_refl)
      as (st1 & i1 & st2 & i2 & H1 & H2 & _ & _ & _ & Hshared).
    destruct (Hshared 0%nat eq_refl ltac:(vm_compute; discriminate))
      as (Ha1 & Ha2 & Hread).
    exists st1, i1, st2, i2. by split_and!.
  - destruct (get_extension_instances shipped_fs boot
                (load_extensions shipped_fs boot).1
                "gateways" "stripe" None Stripe.class
                ltac:(vm_compute; reflexivity) ltac:(vm_compute; reflexivity)
                eq_refl)
      as (st1 & i1 & st2 & i2 & H1 & H2 & _ & _ & Hempty & _).
    destruct (Hempty I) as (Hne & _ & Hind).
    exists st1, i1, st2, i2. by split_and!.
Defined.

(** Without a mapping the two instances get mappings of their own. *)
Example get_extension_fresh_configs :
  let r1 := get_extension shipped_fs "gateways" "stripe" None boot in
  let r2 := get_extension shipped_fs "gateways" "stripe" None r1.1 in
  (r1.2, r2.2)
  = (Ok (Some {| inst_class := Stripe.class; _config := 1%nat |}),
     Ok (Some {| inst_class := Stripe.class; _config := 3%nat |})).
Proof. vm_compute. reflexivity. Qed.

(** ** Provisioning: [Proxmox.terminate] *)

Section TerminateFacts.
Variable py_str : value -> string.
Variable World : Type.
Variable httpx_send : HttpCall -> M World Response.

Let stop := stop_call py_str World httpx_send.
Let delete := delete_call py_str World httpx_send.
Let terminate := Proxmox_terminate py_str World httpx_send.

(** [terminate] after the guard: the stop request, its outcome dropped,
    then the delete request. *)
Lemma Proxmox_terminate_run h self service vmid w :
  service_vmid service = Ok vmid -> truthy vmid = true ->
  terminate h self service w =
  match delete h self vmid (stop h self vmid w).1 with
  | (w2, Ok result) =>
      (w2, Ok (VDict [("success", VBool true);
                      ("message",
                       VStr ("VM " +:+ py_str vmid
                               +:+ " terminated successfully"));
                      ("data", result)]))
  | (w2, Err e) => (w2, Err e)
  end.
Proof.
  intros Hv Ht. subst terminate stop delete.
  unfold Proxmox_terminate, bind, lift, try_except, ret.
  rewrite Hv, Ht. simpl.
  destruct (stop_call py_str World httpx_send h self vmid w)
    as [w1 [r|e]]; simpl;
    by destruct (delete_call py_str World httpx_send h self vmid w1)
      as [w2 [r2|e2]].
Qed.
End TerminateFacts.

(** C6: once [terminate] has a VM id and issues its requests, a failing
    stop request is swallowed, the delete request is still sent, and a
    successful delete makes [terminate] return success; a failing delete
    request raises its exception to the caller, whatever the stop did. *)
Theorem Proxmox_terminate_swallows_stop_only
    (py_str : value -> string) (World : Type)
    (httpx_send : HttpCall -> M World Response)
    h self service vmid w :
  service_vmid service = Ok vmid -> truthy vmid = true ->
  (forall w1 e w2 result,
     stop_call py_str World httpx_send h self vmid w = (w1, Err e) ->
     delete_call py_str World httpx_send h self vmid w1 = (w2, Ok result) ->
     Proxmox_terminate py_str World httpx_send h self service w
     = (w2, Ok (VDict [("success", VBool true);
                       ("message",
                        VStr ("VM " +:+ py_str vmid
                                +:+ " terminated successfully"));
                       ("data", result)]))) /\
  (forall w1 outcome w2 e,
     stop_call py_str World httpx_send h self vmid w = (w1, outcome) ->
     delete_call py_str World httpx_send h self vmid w1 = (w2, Err e) ->
     Proxmox_terminate py_str World httpx_send h self service w = (w2, Err e)).
Proof.
  intros Hv Ht. split.
  - intros w1 e w2 result Hstop Hdel.
    rewrite (Proxmox_terminate_run _ _ _ _ _ _ vmid) by done.
    rewrite Hstop. simpl. by rewrite Hdel.
  - intros w1 outcome w2 e Hstop Hdel.
    rewrite (Proxmox_terminate_run _ _ _ _ _ _ vmid) by done.
    rewrite Hstop. simpl. by rewrite Hdel.
Qed.

Lemma Proxmox_terminate_stopped_vm :
  (forall w1 e w2 result,
     stop_call str_scalar _ stopped_vm_node pve_heap pve_instance (VInt 100) []
       = (w1, Err e) ->
     delete_call str_scalar _ stopped_vm_node pve_heap pve_instance
       (VInt 100) w1 = (w2, Ok result) ->
     Proxmox_terminate str_scalar _ stopped_vm_node pve_heap pve_instance
       vm100 []
     = (w2, Ok (VDict [("success", VBool true);
                       ("message",
                        VStr ("VM " +:+ str_scalar (VInt 100)
                                +:+ " terminated successfully"));
                       ("data", result)]))) /\
  (forall w1 outcome w2 e,
     stop_call str_scalar _ stopped_vm_node pve_heap pve_instance (VInt 100) []
       = (w1, outcome) ->
     delete_call str_scalar _ stopped_vm_node pve_heap pve_instance
       (VInt 100) w1 = (w2, Err e) ->
     Proxmox_terminate str_scalar _ stopped_vm_node pve_heap pve_instance
       vm100 [] = (w2, Err e)).
Proof.
  apply (Proxmox_terminate_swallows_stop_only str_scalar _ stopped_vm_node
           pve_heap pve_instance vm100 (VInt 100) []);
    vm_compute; reflexivity.
Defined.

(** The stop request fails, the delete request succeeds: success. *)
Example Proxmox_terminate_stop_fails :
  (stop_call str_scalar _ stopped_vm_node pve_heap pve_instance (VInt 100)
     []).2
  = Err (Raise Exception "Proxmox API Error: VM 100 not running") /\
  (Proxmox_terminate str_scalar _ stopped_vm_node pve_heap pve_instance
     vm100 []).2
  = Ok (VDict [("success", VBool true);
               ("message", VStr "VM 100 terminated successfully");
               ("data", VDict [("data", VStr "UPID:pve:destroy")])]).
Proof. split; vm_compute; reflexivity. Qed.

(** The delete request fails: its exception reaches the caller. *)
Example Proxmox_terminate_delete_fails :
  (Proxmox_terminate str_scalar _ unreachable_node pve_heap pve_instance
     vm100 []).2
  = Err (Raise TransportError "connection refused").
Proof. vm_compute. reflexivity. Qed.

(** ** Payment gateways *)

(** C7: [refund] on a gateway whose class does not implement it raises
    [NotImplementedError] with the message of base.py, touching nothing;
    a handler for that class catches it and does not catch the plain
    [Exception] the gateways raise for a failed request. *)
Theorem refund_unsupported (World Transaction : Type)
    (g : GatewayClass World Transaction) h self (transaction : Transaction)
    (w : World) :
  own_refund _ _ g = None ->
  exists e,
    refund _ _ g h self transaction w = (w, Err e) /\
    e = Raise NotImplementedError "Refund not supported by this gateway" /\
    isinstance e NotImplementedError = true /\
    exact_class e Exception = false /\
    forall msg, isinstance (Raise Exception msg) NotImplementedError = false.
Proof.
  intros Hown. eexists. unfold refund. rewrite Hown.
  unfold GatewayExtension_refund, raise. split_and!; try reflexivity.
Qed.

Lemma refund_unsupported_cash :
  exists e,
    refund _ _ (cash_gateway unit unit) [] stripe_instance tt tt
      = (tt, Err e) /\
    e = Raise NotImplementedError "Refund not supported by this gateway" /\
    isinstance e NotImplementedError = true /\
    exact_class e Exception = false /\
    forall msg, isinstance (Raise Exception msg) NotImplementedError = false.
Proof.
  apply (refund_unsupported unit unit (cash_gateway unit unit) []
           stripe_instance tt tt).
  reflexivity.
Defined.

(** C8, as stated, fails: with no webhook secret configured the handler
    verifies nothing, and a request without any signature is processed. *)
Lemma Stripe_webhook_unverified_without_secret :
  ~ (forall hmac json_loads decode h self request,
       verify_signature hmac decode (config h self "webhook_secret" VNone)
         request <> Ok tt ->
       exists e, Stripe_webhook hmac json_loads decode h self request = Err e).
Proof.
  intros H.
  destruct (H toy_hmac toy_json_loads toy_decode no_secret_heap
              stripe_instance forged_request) as [e He].
  - vm_compute. discriminate.
  - vm_compute in He. discriminate.
Qed.

(** C8 (amended): when a webhook secret is configured, [Stripe.webhook]
    verifies before it trusts: a request whose signature check fails makes
    the handler fail with the error of the check, the body unread, and a
    processed result means that the header carried, under [v1], the HMAC of
    timestamp, dot and body under the secret.  When no secret is
    configured the handler checks nothing and processes the body. *)
Theorem Stripe_webhook_verifies_when_configured
    (hmac : string -> string -> string) (json_loads : string -> result value)
    (decode : string -> result string) h self request :
  let secret := config h self "webhook_secret" VNone in
  (truthy secret = true ->
     (forall e, verify_signature hmac decode secret request = Err e ->
        Stripe_webhook hmac json_loads decode h self request = Err e) /\
     (forall r, Stripe_webhook hmac json_loads decode h self request = Ok r ->
        exists key sig_parts decoded,
          secret = VStr key /\
          dict_of_pairs
            (map (split "=")
               (split ","
                  (dict_get_default (request_headers request)
                     "Stripe-Signature" ""%string))) [] = Ok sig_parts /\
          decode (body request) = Ok decoded /\
          hmac key (format_timestamp (dict_get sig_parts "t")
                      +:+ "." +:+ decoded)
            ∈ split "," (dict_get_default sig_parts "v1" ""%string) /\
          process_event json_loads request = Ok r)) /\
  (truthy secret = false ->
     Stripe_webhook hmac json_loads decode h self request
     = process_event json_loads request).
Proof.
  intros secret. unfold Stripe_webhook. fold secret. split.
  - intros Ht. rewrite Ht. split.
    + intros e He. by rewrite He.
    + intros r. unfold verify_signature, and_then.
      destruct (dict_of_pairs _ _) as [sig_parts|e1]; [|done].
      destruct (decode (body request)) as [decoded|e2]; [|done].
      destruct (encode_secret secret) as [key|e3] eqn:Hkey; [|done].
      destruct (bool_decide _) eqn:Hin; simpl; [|done].
      intros Hr. exists key, sig_parts, decoded.
      apply bool_decide_eq_true in Hin.
      split_and!; try done.
      destruct secret; simpl in Hkey; try discriminate. congruence.
  - intros Hf. by rewrite Hf.
Qed.

Lemma Stripe_webhook_verifies_signed :
  exists key sig_parts decoded,
    config secret_heap stripe_instance "webhook_secret" VNone = VStr key /\
    dict_of_pairs
      (map (split "=")
         (split ","
            (dict_get_default (request_headers signed_request)
               "Stripe-Signature" ""%string))) [] = Ok sig_parts /\
    toy_decode (body signed_request) = Ok decoded /\
    toy_hmac key (format_timestamp (dict_get sig_parts "t")
                    +:+ "." +:+ decoded)
      ∈ split "," (dict_get_default sig_parts "v1" ""%string) /\
    process_event toy_json_loads signed_request
    = Ok (VDict [("success", VBool true);
                 ("event", VStr "checkout.session.completed");
                 ("invoice_id", VNone); ("status", VStr "paid")]).
Proof.
  destruct (Stripe_webhook_verifies_when_configured toy_hmac toy_json_loads
              toy_decode secret_heap stripe_instance signed_request)
    as [Hconfigured _].
  destruct (Hconfigured ltac:(vm_compute; reflexivity)) as [_ Hok].
  apply Hok. vm_compute. reflexivity.
Defined.

(** With the secret configured the forged request is refused and the
    signed one is processed. *)
Example Stripe_webhook_refuses_forged :
  Stripe_webhook toy_hmac toy_json_loads toy_decode secret_heap
    stripe_instance forged_request
  = Err (Raise ValueError
           "dictionary update sequence element #0 has length 1; 2 is required").
Proof. vm_compute. reflexivity. Qed.

Example Stripe_webhook_accepts_signed :
  Stripe_webhook toy_hmac toy_json_loads toy_decode secret_heap
    stripe_instance signed_request
  = Ok (VDict [("success", VBool true);
               ("event", VStr "checkout.session.completed");
               ("invoice_id", VNone); ("status", VStr "paid")]).
Proof. vm_compute. reflexivity. Qed.

Example Stripe_webhook_wrong_signature :
  Stripe_webhook toy_hmac toy_json_loads toy_decode secret_heap
    stripe_instance
    {| request_headers := [("Stripe-Signature", "t=1700000000,v1=00")];
       body := checkout_event |}
  = Err (Raise Exception "Invalid webhook signature").
Proof. vm_compute. reflexivity. Qed.

(** ** Metadata and schemas of the shipped extensions *)

(** C10: for each shipped implementation, [get_metadata] and [get_config]
    without values return the same record and schema whatever mapping the
    instance is bound to; so the metadata and config endpoints, which bind
    an empty mapping, answer what the extension reports under any stored
    configuration. *)
Theorem shipped_metadata_ignores_config cls :
  cls ∈ shipped_classes ->
  (forall h1 a1 h2 a2,
     get_metadata cls h1 a1 = get_metadata cls h2 a2 /\
     get_config cls h1 a1 None = get_config cls h2 a2 None) /\
  (forall st h a, self st = shipped_manager ->
     (get_extension_metadata shipped_fs (category_of (cls_base cls))
        (cls_name cls) st).2 = get_metadata cls h a /\
     (get_extension_config shipped_fs (category_of (cls_base cls))
        (cls_name cls) st).2 = get_config cls h a None).
Proof.
  intros Hin. split.
  - intros h1 a1 h2 a2.
    apply list_elem_of_In in Hin. simpl in Hin.
    destruct Hin as [<-|[<-|[<-|[]]]]; by split.
  - intros st h a Hself.
    assert (load_extensions shipped_fs st = (st, Ok tt)) as Hrun.
    { apply load_extensions_loaded. rewrite Hself. reflexivity. }
    unfold get_extension_metadata, get_extension_config, bind.
    rewrite get_extension_run, Hrun. unfold index. rewrite Hself.
    apply list_elem_of_In in Hin. simpl in Hin.
    destruct Hin as [<-|[<-|[<-|[]]]];
      (match goal with
       | |- context [dict_get ?d (lower ?k)] =>
           let v := eval vm_compute in (dict_get d (lower k)) in
           change (dict_get d (lower k)) with v
       end);
      cbv iota; rewrite construct_inherits by reflexivity; by vm_compute.
Qed.

Lemma shipped_metadata_ignores_config_stripe :
  (forall h1 a1 h2 a2,
     get_metadata Stripe.class h1 a1 = get_metadata Stripe.class h2 a2 /\
     get_config Stripe.class h1 a1 None = get_config Stripe.class h2 a2 None)
  /\
  (forall st h a, self st = shipped_manager ->
     (get_extension_metadata shipped_fs "gateways" "Stripe" st).2
     = get_metadata Stripe.class h a /\
     (get_extension_config shipped_fs "gateways" "Stripe" st).2
     = get_config Stripe.class h a None).
Proof.
  apply (shipped_metadata_ignores_config Stripe.class).
  apply list_elem_of_In. simpl. auto.
Defined.

(** The scenario of the query API: the Stripe schema has a required
    password field [secret_key]. *)
Example get_extension_config_stripe_secret_key :
  exists more,
    (get_extension_config shipped_fs "gateways" "stripe" boot).2
    = Ok (VList (field "secret_key" "password" "Secret Key"
                   "Stripe secret key (sk_...)" [("required", VBool true)]
                 :: more)).
Proof. eexists. vm_compute. reflexivity. Qed.


(** * Further properties of the code *)

(** ** Discovery: what gets into the index *)

Lemma for_each_inv_in {A} (P : Runtime -> Prop) (body : A -> R unit)
    (l : list A) :
  (forall x st st' r, x ∈ l -> P st -> body x st = (st', r) -> P st') ->
  forall st st' r, P st -> for_each l body st = (st', r) -> P st'.
Proof.
  induction l as [|x l IH]; simpl; intros Hbody st st' r HP.
  - by intros [= <- <-].
  - unfold bind. destruct (body x st) as [st1 [[]|e1]] eqn:Hx.
    + apply IH.
      * intros y s s' r' Hy. apply Hbody. by right.
      * eapply Hbody; [left|done|done].
    + intros [= <- <-]. eapply Hbody; [left|done|done].
Qed.

(** What one registration does to the lookups. *)
Lemma register_lookup category key attr st st' r c k :
  register category key attr st = (st', r) ->
  dict_get (index st' c) k =
  match r with
  | Ok _ => if decide (c = category /\ k = key) then Some attr
            else dict_get (index st c) k
  | Err _ => dict_get (index st c) k
  end.
Proof.
  unfold register, bind, get, set_self, raise, index.
  destruct (dict_get (_extensions (self st)) category) as [exts|] eqn:Hc.
  - intros [= <- <-]. simpl. unfold dict_get_default.
    destruct (decide (c = category)) as [->|Hne].
    + rewrite dict_get_set_eq, Hc.
      destruct (decide (k = key)) as [->|Hk].
      * rewrite dict_get_set_eq. by rewrite decide_True.
      * rewrite dict_get_set_ne by done. rewrite decide_False; [done|].
        by intros (_ & ?).
    + rewrite dict_get_set_ne by done. rewrite decide_False; [done|].
      by intros (? & _).
  - by intros [= <- <-].
Qed.

Section DiscoveryFacts.
Variable fs : FileSystem.

(** A guarded directory step either leaves every lookup as it was, or files
    the class of a module that imported, under the lowercased name. *)
Lemma guarded_load_item_effect category item st st' r :
  try_except (load_item fs category item)
    (fun e => isinstance e ImportError || isinstance e AttributeError)
    (fun _ => ret tt) st = (st', r) ->
  (forall c k, dict_get (index st' c) k = dict_get (index st c) k) \/
  (exists attrs cls,
     import_module fs (module_name category item) = Returns attrs /\
     find_extension_class attrs = Some cls /\ r = Ok tt /\
     forall c k, dict_get (index st' c) k =
       if decide (c = category /\ k = lower item) then Some cls
       else dict_get (index st c) k).
Proof.
  unfold try_except, load_item, bind at 1. unfold lift at 1.
  fold (module_name category item).
  destruct (import_module fs (module_name category item)) as [attrs|ec msg];
    simpl.
  - destruct (find_extension_class attrs) as [cls|] eqn:Hfind.
    + destruct (register category (lower item) cls st) as [s1 [[]|e]] eqn:Hreg.
      * intros [= <- <-]. right. exists attrs, cls. split_and!; try done.
        intros c k. by rewrite (register_lookup _ _ _ _ _ _ c k Hreg).
      * assert (forall c k, dict_get (index s1 c) k = dict_get (index st c) k)
          as Hsame.
        { intros c k. by rewrite (register_lookup _ _ _ _ _ _ c k Hreg). }
        destruct (_ || _); intros [= <- <-]; by left.
    + unfold ret. intros [= <- <-]. by left.
  - destruct (_ || _); unfold ret; intros [= <- <-]; by left.
Qed.

Lemma count_scan_index category st c :
  index (count_scan category st).1 c = index st c.
Proof. done. Qed.

(** The state a category scan works on, and the loop it runs. *)
Lemma _load_category_cases category st st' r :
  _load_category fs category st = (st', r) ->
  let st0 := (count_scan category st).1 in
  (st' = st0) \/
  (path_exists fs category = true /\
   exists items,
     listdir fs category = Returns items /\
     for_each items (fun item =>
       if String.prefix "__" item || negb (isdir fs category item)
       then ret tt
       else try_except (load_item fs category item)
              (fun e => isinstance e ImportError || isinstance e AttributeError)
              (fun _ => ret tt)) st0 = (st', r)).
Proof.
  unfold _load_category, bind at 1. simpl.
  destruct (path_exists fs category); simpl.
  - unfold bind, lift. destruct (listdir fs category) as [items|ec msg]; simpl.
    + intros H. right. split; [done|]. by exists items.
    + intros [= <- <-]. by left.
  - unfold ret. intros [= <- <-]. by left.
Qed.

Lemma _load_category_sound category st st' r :
  category ∈ categories -> sound fs st ->
  _load_category fs category st = (st', r) -> sound fs st'.
Proof.
  intros Hcat Hsound Hrun.
  destruct (_load_category_cases _ _ _ _ Hrun)
    as [->|(Hex & items & Hls & Hloop)]; [done|].
  revert Hloop. apply for_each_inv_in; [|done].
  intros item s s' r' Hin Hs.
  destruct (String.prefix "__" item || negb (isdir fs category item))
    eqn:Hskip.
  { unfold ret. by intros [= <- <-]. }
  apply orb_false_elim in Hskip as [Hdunder Hdir].
  apply negb_false_iff in Hdir.
  intros Hstep.
  destruct (guarded_load_item_effect _ _ _ _ _ Hstep)
    as [Hsame|(attrs & cls & Himp & Hfind & _ & Hupd)].
  - intros c k cls0. rewrite Hsame. apply Hs.
  - intros c k cls0. rewrite Hupd.
    destruct (decide _) as [[-> ->]|_]; [|apply Hs].
    intros [= <-]. exists item. split; [done|].
    unfold loadable. split_and!; eauto.
Qed.

Lemma load_extensions_sound st st' r :
  sound fs st -> load_extensions fs st = (st', r) -> sound fs st'.
Proof.
  intros Hs. unfold load_extensions, bind at 1. unfold get at 1.
  destruct (_loaded (self st)).
  { unfold ret. by intros [= <- <-]. }
  assert ("servers" ∈ categories /\ "gateways" ∈ categories
          /\ "others" ∈ categories) as (Hc1 & Hc2 & Hc3).
  { unfold categories. split_and!; apply list_elem_of_In; simpl; auto. }
  unfold bind at 1.
  destruct (_load_category fs "servers" st) as [s1 [[]|e1]] eqn:H1;
    pose proof (_load_category_sound _ _ _ _ Hc1 Hs H1) as Hs1.
  2:{ by intros [= <- <-]. }
  unfold bind at 1.
  destruct (_load_category fs "gateways" s1) as [s2 [[]|e2]] eqn:H2;
    pose proof (_load_category_sound _ _ _ _ Hc2 Hs1 H2) as Hs2.
  2:{ by intros [= <- <-]. }
  unfold bind at 1.
  destruct (_load_category fs "others" s2) as [s3 [[]|e3]] eqn:H3;
    pose proof (_load_category_sound _ _ _ _ Hc3 Hs2 H3) as Hs3.
  2:{ by intros [= <- <-]. }
  unfold bind, get, set_self. by intros [= <- <-].
Qed.
End DiscoveryFacts.

Lemma sound_init fs st : self st = ExtensionManager__init__ -> sound fs st.
Proof.
  intros Hself c k cls. unfold index. rewrite Hself.
  unfold dict_get_default, ExtensionManager__init__. cbn -[String.eqb].
  destruct (String.eqb "servers" c); [done|].
  destruct (String.eqb "gateways" c); [done|].
  by destruct (String.eqb "others" c).
Qed.

(** X1: whatever a call of [load_extensions] on a fresh manager does,
    also when it is aborted, every entry of the index is the class of a
    directory that discovery keeps (listed in a known category, no dunder
    name, a directory, its module imported and showing a class), filed
    under the lowercased directory name. *)
Theorem discovery_sound fs st st' r :
  self st = ExtensionManager__init__ ->
  load_extensions fs st = (st', r) ->
  forall c k cls, dict_get (index st' c) k = Some cls ->
    exists item, k = lower item /\ loadable fs c item cls.
Proof.
  intros Hself Hrun. eapply load_extensions_sound; [|done].
  by apply sound_init.
Qed.

Lemma discovery_sound_stripe :
  exists item,
    "stripe" = lower item /\ loadable shipped_fs "gateways" item Stripe.class.
Proof.
  apply (discovery_sound shipped_fs boot (load_extensions shipped_fs boot).1
           (Ok tt) eq_refl ltac:(vm_compute; reflexivity) "gateways").
  vm_compute. reflexivity.
Defined.

Section CompletenessFacts.
Variable fs : FileSystem.

Lemma guarded_load_item_keeps category item c k st st' r :
  listed c k st ->
  try_except (load_item fs category item)
    (fun e => isinstance e ImportError || isinstance e AttributeError)
    (fun _ => ret tt) st = (st', r) ->
  listed c k st'.
Proof.
  intros Hl Hstep. unfold listed in *.
  destruct (guarded_load_item_effect _ _ _ _ _ _ Hstep)
    as [Hsame|(attrs & cls & _ & _ & _ & Hupd)].
  - by rewrite Hsame.
  - rewrite Hupd. by destruct (decide _).
Qed.

Lemma _load_category_keeps category c k st st' r :
  listed c k st -> _load_category fs category st = (st', r) -> listed c k st'.
Proof.
  intros Hl Hrun.
  destruct (_load_category_cases _ _ _ _ _ Hrun)
    as [->|(_ & items & _ & Hloop)]; [done|].
  revert Hloop. apply for_each_inv_in; [|done].
  intros item s s' r' _ Hs.
  destruct (_ || _); [unfold ret; by intros [= <- <-]|].
  by apply guarded_load_item_keeps.
Qed.

(** A loop that returns has run the step of each of its items, and what
    that step establishes lasts if every step keeps it. *)
Lemma for_each_establishes {A} (P : Runtime -> Prop) (body : A -> R unit)
    (l : list A) (x : A) :
  (forall y st st' r, P st -> body y st = (st', r) -> P st') ->
  (forall st st', body x st = (st', Ok tt) -> P st') ->
  x ∈ l ->
  forall st st', for_each l body st = (st', Ok tt) -> P st'.
Proof.
  intros Hkeep Hest. induction l as [|y l IH]; intros Hin st st'.
  - by apply elem_of_nil in Hin.
  - simpl. unfold bind. destruct (body y st) as [s1 [[]|e1]] eqn:Hy; [|done].
    apply elem_of_cons in Hin as [->|Hin].
    + intros Hrest.
      destruct (for_each_inv P (fun _ => True) body l
                  ltac:(intros ? ? ? ? HP Hb; split; [by eapply Hkeep|done])
                  s1 st' (Ok tt) ltac:(by eapply Hest) Hrest) as [HP _].
      done.
    + by apply IH.
Qed.

Lemma register_error category key attr st st' e :
  register category key attr st = (st', Err e) ->
  e = Raise KeyError ("'" +:+ category +:+ "'").
Proof.
  unfold register, bind, get, set_self, raise.
  destruct (dict_get _ category); [done|]. by intros [= _ <-].
Qed.

Lemma _load_category_lists category item cls st st' :
  loadable fs category item cls ->
  _load_category fs category st = (st', Ok tt) ->
  listed category (lower item) st'.
Proof.
  intros (_ & Hex & (items & Hls & Hin) & Hdunder & Hdir & attrs & Himp & Hfind).
  unfold _load_category, bind at 1. simpl. rewrite Hex. simpl.
  unfold bind at 1, lift. rewrite Hls. simpl.
  apply (for_each_establishes (listed category (lower item)) _ items item);
    [| |done].
  - intros y s s' r Hl. destruct (_ || _); [unfold ret; by intros [= <- <-]|].
    by apply guarded_load_item_keeps.
  - intros s s'. rewrite Hdunder, Hdir. simpl.
    unfold try_except, load_item, bind, lift. fold (module_name category item).
    rewrite Himp. simpl. rewrite Hfind.
    destruct (register category (lower item) cls s) as [s1 [[]|e]] eqn:Hreg.
    + intros [= <-]. unfold listed.
      rewrite (register_lookup _ _ _ _ _ _ category (lower item) Hreg).
      by rewrite decide_True.
    + apply register_error in Hreg as ->. simpl. done.
Qed.

(** X2: when a call of [load_extensions] on a registry not yet loaded
    returns, every loadable directory is in the index of its category
    under its lowercased name. *)
Theorem discovery_complete st st1 category item cls :
  _loaded (self st) = false ->
  load_extensions fs st = (st1, Ok tt) ->
  loadable fs category item cls ->
  lower item ∈ dict_keys (index st1 category).
Proof.
  intros Hl Hrun Hload.
  assert (listed category (lower item) st1) as [x Hx]; last first.
  { destruct (decide (lower item ∈ dict_keys (index st1 category)))
      as [|Hno]; [done|].
    apply dict_get_None_keys in Hno. congruence. }
  revert Hrun. unfold load_extensions, bind at 1. unfold get at 1. rewrite Hl.
  unfold bind at 1.
  destruct (_load_category fs "servers" st) as [s1 [[]|e1]] eqn:H1; [|done].
  unfold bind at 1.
  destruct (_load_category fs "gateways" s1) as [s2 [[]|e2]] eqn:H2; [|done].
  unfold bind at 1.
  destruct (_load_category fs "others" s2) as [s3 [[]|e3]] eqn:H3; [|done].
  unfold bind, get, set_self. intros [= <-].
  change (listed category (lower item) s3).
  pose proof Hload as (Hcat & _).
  apply list_elem_of_In in Hcat. simpl in Hcat.
  destruct Hcat as [<-|[<-|[<-|[]]]].
  - eapply _load_category_keeps; [|exact H3].
    eapply _load_category_keeps; [|exact H2].
    by eapply _load_category_lists.
  - eapply _load_category_keeps; [|exact H3].
    by eapply _load_category_lists.
  - by eapply _load_category_lists.
Qed.
End CompletenessFacts.

Lemma discovery_complete_proxmox :
  lower "Proxmox" ∈ dict_keys (index (load_extensions shipped_fs boot).1 "servers").
Proof.
  apply (discovery_complete shipped_fs boot _ "servers" "Proxmox"
           Proxmox.class eq_refl ltac:(vm_compute; reflexivity)).
  unfold loadable. split_and!.
  - apply list_elem_of_In. simpl. auto.
  - reflexivity.
  - exists ["Proxmox"]. split; [reflexivity|]. apply list_elem_of_In. simpl. auto.
  - reflexivity.
  - reflexivity.
  - eexists. split; reflexivity.
Defined.

(** ** Discovery: which failures it contains *)


Section ContainmentFacts.
Variable fs : FileSystem.
Hypothesis listdir_returns : forall c,
  c ∈ categories -> path_exists fs c = true ->
  exists items, listdir fs c = Returns items.
Hypothesis imports_fail_softly : forall name c msg,
  import_module fs name = Raises c msg ->
  issubclass c ImportError || issubclass c AttributeError = true.


End ContainmentFacts.


(** ** Listing and lookup agree *)

Lemma lower_char_idem c : lower_char (lower_char c) = lower_char c.
Proof. by destruct c as [[] [] [] [] [] [] [] []]. Qed.

Lemma lower_idem s : lower (lower s) = lower s.
Proof.
  induction s as [|c s IH]; simpl; [done|]. by rewrite lower_char_idem, IH.
Qed.

Lemma dict_get_is_Some_keys {V} (d : list (string * V)) k :
  is_Some (dict_get d k) <-> k ∈ dict_keys d.
Proof.
  destruct (dict_get d k) eqn:E.
  - split; [intros _|eauto].
    destruct (decide (k ∈ dict_keys d)) as [|Hno]; [done|].
    apply dict_get_None_keys in Hno. congruence.
  - split; [by intros [? [=]]|]. intros Hin.
    by apply dict_get_None_keys in E.
Qed.

(** X4: after discovery on a fresh manager, [get_extension(c, n)] returns
    [None] exactly when the lowercased [n] is not among the names that
    [list_extensions(c)] reports; every reported name is lowercase
    already, and passed back to [get_extension] as it is, it reaches the
    class registered under it: the call returns the instance that class
    constructs, or raises what calling the class raises. *)
Theorem listed_names_resolve fs st st1 c n cfg :
  self st = ExtensionManager__init__ ->
  load_extensions fs st = (st1, Ok tt) ->
  c <> "" ->
  exists names,
    list_extensions fs (Some c) st1 = (st1, Ok [(c, names)]) /\
    ((get_extension fs c n cfg st1).2 = Ok None <-> lower n ∉ names) /\
    (n ∈ names ->
       lower n = n /\
       exists cls,
         registered st1 c n cls /\
         (get_extension fs c n cfg st1).2
         = match (construct cls cfg (heap st1)).2 with
           | Ok inst => Ok (Some inst)
           | Err e => Err e
           end).
Proof.
  intros Hself Hrun Hc.
  destruct (load_extensions_frame _ _ _ _ Hrun) as (_ & _ & Hl & _).
  pose proof (load_extensions_loaded fs st1 (Hl eq_refl)) as Hrun1.
  exists (dict_keys (index st1 c)).
  split_and!.
  - rewrite list_extensions_run, Hrun1.
    apply String.eqb_neq in Hc. by rewrite Hc.
  - rewrite <- dict_get_None_keys, get_extension_run, Hrun1.
    destruct (dict_get (index st1 c) (lower n)) as [cls|]; simpl; [|done].
    split; [|done]. by destruct (construct cls cfg (heap st1)).2.
  - intros Hin. apply dict_get_is_Some_keys in Hin as [cls Hcls].
    destruct (load_extensions_sound _ _ _ _ (sound_init fs st Hself) Hrun
                _ _ _ Hcls) as (item & -> & _).
    split; [apply lower_idem|]. exists cls. unfold registered.
    rewrite lower_idem. split; [done|].
    by rewrite get_extension_run, Hrun1, lower_idem, Hcls.
Qed.

Lemma listed_names_resolve_messy :
  (let st1 := (load_extensions messy_fs boot).1 in
   list_extensions messy_fs (Some "gateways") st1
     = (st1, Ok [("gateways", ["stripe"])]) /\
   lower "stripe" = "stripe" /\
   exists cls,
     registered st1 "gateways" "stripe" cls /\
     (get_extension messy_fs "gateways" "stripe" None st1).2
     = match (construct cls None (heap st1)).2 with
       | Ok inst => Ok (Some inst)
       | Err e => Err e
       end) /\
  (let st1 := (load_extensions partial_fs boot).1 in
   list_extensions partial_fs (Some "gateways") st1
     = (st1, Ok [("gateways", ["partial"])]) /\
   lower "partial" = "partial" /\
   exists cls,
     registered st1 "gateways" "partial" cls /\
     (get_extension partial_fs "gateways" "partial" None st1).2
     = match (construct cls None (heap st1)).2 with
       | Ok inst => Ok (Some inst)
       | Err e => Err e
       end).
Proof.
  split.
  - destruct (listed_names_resolve messy_fs boot
                (load_extensions messy_fs boot).1 "gateways" "stripe" None
                eq_refl ltac:(vm_compute; reflexivity) ltac:(discriminate))
      as (names & Hlist & _ & Hlisted).
    assert (names = ["stripe"]) as ->.
    { vm_compute in Hlist. by injection Hlist as <-. }
    split; [exact Hlist|].
    apply Hlisted. apply list_elem_of_In. simpl. auto.
  - destruct (listed_names_resolve partial_fs boot
                (load_extensions partial_fs boot).1 "gateways" "partial" None
                eq_refl ltac:(vm_compute; reflexivity) ltac:(discriminate))
      as (names & Hlist & _ & Hlisted).
    assert (names = ["partial"]) as ->.
    { vm_compute in Hlist. by injection Hlist as <-. }
    split; [exact Hlist|].
    apply Hlisted. apply list_elem_of_In. simpl. auto.
Defined.

(** ** What the registry operations leave alone *)

Lemma or_empty_heap_extends config (h : Heap) :
  exists new, (or_empty_heap config h).1 = h ++ new.
Proof.
  unfold or_empty_heap, alloc. destruct config as [a|]; simpl.
  - destruct (deref h a); simpl; [by eexists|]. exists []. by rewrite app_nil_r.
  - by eexists.
Qed.

Lemma bind_config_extends config (h : Heap) :
  exists new, (bind_config config h).1 = h ++ new.
Proof.
  unfold bind_config.
  destruct (or_empty_heap_extends config h) as [new1 H1].
  destruct (or_empty_heap config h) as [h1 a1]. simpl in H1. subst h1.
  destruct (or_empty_heap_extends (Some a1) (h ++ new1)) as [new2 H2].
  exists (new1 ++ new2). by rewrite H2, app_assoc.
Qed.

Lemma construct_extends cls config (h : Heap) :
  exists new, (construct cls config h).1 = h ++ new.
Proof.
  unfold construct.
  destruct (or_empty_heap_extends config h) as [new1 H1].
  destruct (or_empty_heap config h) as [h1 a1]. simpl in H1. subst h1.
  destruct (construction cls) as [|msg|init].
  - destruct (or_empty_heap_extends (Some a1) (h ++ new1)) as [new2 H2].
    destruct (or_empty_heap (Some a1) (h ++ new1)) as [h2 a2].
    simpl in *. subst h2. exists (new1 ++ new2). by rewrite app_assoc.
  - by exists new1.
  - destruct (init (h ++ new1) a1) as [new2 bound]. simpl.
    exists (new1 ++ new2). by rewrite app_assoc.
Qed.

Lemma get_extension_frame fs c n cfg st :
  _loaded (self st) = true ->
  let st' := (get_extension fs c n cfg st).1 in
  self st' = self st /\ scans st' = scans st /\
  exists new, heap st' = heap st ++ new.
Proof.
  intros Hl. simpl. rewrite get_extension_run, load_extensions_loaded by done.
  destruct (dict_get _ _); simpl.
  - split_and!; [done|done|]. apply construct_extends.
  - split_and!; [done|done|]. exists []. by rewrite app_nil_r.
Qed.

(** X5: on a loaded registry the queries change nothing they should not:
    the three listings leave the whole state as it is, and a lookup, alone
    or through the metadata and config endpoints, leaves the manager and
    the scan count alone and only adds dicts to the heap, whatever it
    returns or raises. *)
Theorem queries_read_only fs st :
  _loaded (self st) = true ->
  (forall category, (list_extensions fs category st).1 = st) /\
  (list_all_extensions fs st).1 = st /\
  (forall category, (list_extensions_by_category fs category st).1 = st) /\
  (forall c n cfg st',
     st' = (get_extension fs c n cfg st).1 \/
     st' = (get_extension_metadata fs c n st).1 \/
     st' = (get_extension_config fs c n st).1 ->
     self st' = self st /\ scans st' = scans st /\
     exists new, heap st' = heap st ++ new).
Proof.
  intros Hl.
  assert (forall category, (list_extensions fs category st).1 = st) as Hlist.
  { intros category.
    by rewrite list_extensions_run, load_extensions_loaded by done. }
  split_and!; [done|apply Hlist| |].
  - intros category. unfold list_extensions_by_category.
    destruct (negb _); [done|apply Hlist].
  - intros c n cfg st' Hst'.
    pose proof (get_extension_frame fs c n None st Hl) as Hnone.
    destruct Hst' as [->|[->| ->]].
    + by apply get_extension_frame.
    + unfold get_extension_metadata, bind, get, lift, raise.
      destruct (get_extension fs c n None st) as [s1 [[inst|]|e]]; done.
    + unfold get_extension_config, bind, get, lift, raise.
      destruct (get_extension fs c n None st) as [s1 [[inst|]|e]]; done.
Qed.

Lemma queries_read_only_shipped :
  let st := (load_extensions shipped_fs boot).1 in
  (forall category, (list_extensions shipped_fs category st).1 = st) /\
  (list_all_extensions shipped_fs st).1 = st /\
  (forall category,
     (list_extensions_by_category shipped_fs category st).1 = st) /\
  (forall c n cfg st',
     st' = (get_extension shipped_fs c n cfg st).1 \/
     st' = (get_extension_metadata shipped_fs c n st).1 \/
     st' = (get_extension_config shipped_fs c n st).1 ->
     self st' = self st /\ scans st' = scans st /\
     exists new, heap st' = heap st ++ new).
Proof.
  apply (queries_read_only shipped_fs). vm_compute. reflexivity.
Defined.



(** X7: the assignment [self._extensions[category][key] = attr], when it
    returns, makes the class the entry of that name and touches no other
    entry; a name already listed keeps its place in the listing (the later
    class replaces the earlier one), a new name goes last. *)
Theorem register_overwrites_in_place category key attr st st' :
  register category key attr st = (st', Ok tt) ->
  dict_get (index st' category) key = Some attr /\
  (forall c k, (c, k) <> (category, key) ->
     dict_get (index st' c) k = dict_get (index st c) k) /\
  (listed category key st ->
     dict_keys (index st' category) = dict_keys (index st category)) /\
  (~ listed category key st ->
     dict_keys (index st' category) = dict_keys (index st category) ++ [key]).
Proof.
  intros Hreg. split_and!.
  - rewrite (register_lookup _ _ _ _ _ _ category key Hreg).
    by rewrite decide_True.
  - intros c k Hne. rewrite (register_lookup _ _ _ _ _ _ c k Hreg).
    rewrite decide_False; [done|]. intros [-> ->]. done.
  - revert Hreg. unfold register, bind, get, set_self, raise, listed, index.
    destruct (dict_get (_extensions (self st)) category) as [exts|] eqn:Hc;
      [|done].
    intros [= <-] Hl. simpl. unfold dict_get_default in *.
    rewrite dict_get_set_eq. rewrite Hc in Hl. rewrite Hc.
    by apply dict_keys_set_present.
  - revert Hreg. unfold register, bind, get, set_self, raise, listed, index.
    destruct (dict_get (_extensions (self st)) category) as [exts|] eqn:Hc;
      [|done].
    intros [= <-] Hl. simpl. unfold dict_get_default in *.
    rewrite dict_get_set_eq. rewrite Hc in Hl. rewrite Hc.
    apply dict_keys_set_absent.
    destruct (dict_get exts key) eqn:E; [|done]. exfalso. apply Hl. eauto.
Qed.

Lemma register_overwrites_in_place_stripe :
  let st := (load_extensions shipped_fs boot).1 in
  let st' := (register "gateways" "stripe" Proxmox.class st).1 in
  dict_get (index st' "gateways") "stripe" = Some Proxmox.class /\
  (forall c k, (c, k) <> ("gateways", "stripe") ->
     dict_get (index st' c) k = dict_get (index st c) k) /\
  (listed "gateways" "stripe" st ->
     dict_keys (index st' "gateways") = dict_keys (index st "gateways")) /\
  (~ listed "gateways" "stripe" st ->
     dict_keys (index st' "gateways")
     = dict_keys (index st "gateways") ++ ["stripe"]).
Proof.
  apply (register_overwrites_in_place "gateways" "stripe" Proxmox.class).
  vm_compute. reflexivity.
Defined.

(** X8: a call of [load_extensions] on a well-formed registry, returning
    or aborted, allocates nothing and leaves the index with its three
    categories and without duplicate names; it returns with the registry
    loaded, or raises a built-in exception with the registry not loaded. *)
Theorem load_extensions_keeps_shape fs st st' r :
  well_formed (self st) ->
  load_extensions fs st = (st', r) ->
  heap st' = heap st /\
  well_formed (self st') /\
  match r with
  | Ok _ => _loaded (self st') = true
  | Err e => builtin e /\ _loaded (self st') = false
  end.
Proof.
  intros Hwf Hrun.
  destruct (load_extensions_frame _ _ _ _ Hrun) as (Hh & Hwf' & Hok & Herr).
  split_and!; [done|by apply Hwf'|].
  destruct r as [[]|e]; [by apply Hok|].
  split; [by apply Herr|].
  destruct (_loaded (self st)) eqn:Hl.
  - rewrite load_extensions_loaded in Hrun by done. done.
  - assert (within True (heap st) (scans st) false st) as Hw by done.
    destruct (load_extensions_pass _ _ _ _ _ _ _ Hw Hrun) as [_ He].
    by destruct (He e eq_refl) as (_ & sc' & _ & _ & ? & _).
Qed.

Lemma load_extensions_keeps_shape_broken :
  let out := load_extensions broken_fs boot in
  heap out.1 = heap boot /\
  well_formed (self out.1) /\
  match out.2 with
  | Ok _ => _loaded (self out.1) = true
  | Err e => builtin e /\ _loaded (self out.1) = false
  end.
Proof.
  apply (load_extensions_keeps_shape broken_fs boot).
  - apply well_formed_init.
  - by destruct (load_extensions broken_fs boot).
Defined.

(** ** Proxmox *)

Lemma upper_char_idem c : upper_char (upper_char c) = upper_char c.
Proof. by destruct c as [[] [] [] [] [] [] [] []]. Qed.

Lemma upper_idem s : upper (upper s) = upper s.
Proof.
  induction s as [|c s IH]; simpl; [done|]. by rewrite upper_char_idem, IH.
Qed.

(** X9: without a VM id in the service configuration (absent, [None], 0
    or empty), [suspend], [unsuspend] and [terminate] raise the exception
    "VM ID not found in service configuration" before any request is sent,
    and [get_login_url] returns [None]. *)
Theorem Proxmox_needs_vm_id (py_str : value -> string) (World : Type)
    (httpx_send : HttpCall -> M World Response) h self service vmid w :
  service_vmid service = Ok vmid -> truthy vmid = false ->
  let e := Raise Exception "VM ID not found in service configuration" in
  Proxmox_suspend py_str World httpx_send h self service w = (w, Err e) /\
  Proxmox_unsuspend py_str World httpx_send h self service w = (w, Err e) /\
  Proxmox_terminate py_str World httpx_send h self service w = (w, Err e) /\
  Proxmox_get_login_url py_str h self service = Ok VNone.
Proof.
  intros Hv Ht. simpl.
  unfold Proxmox_suspend, Proxmox_unsuspend, Proxmox_terminate,
    Proxmox_get_login_url, bind, lift, and_then.
  by rewrite Hv, Ht.
Qed.

(** X10: [Proxmox.request] takes the method in any letter case, and a
    method other than GET, POST, PUT and DELETE raises [ValueError] naming
    it, before anything is sent. *)
Theorem Proxmox_request_method (py_str : value -> string) (World : Type)
    (httpx_send : HttpCall -> M World Response) h self url method data w :
  (upper method ∈ ["GET"; "POST"; "PUT"; "DELETE"] ->
     Proxmox_request py_str World httpx_send h self url method data w
     = Proxmox_request py_str World httpx_send h self url (upper method)
         data w) /\
  (upper method ∉ ["GET"; "POST"; "PUT"; "DELETE"] ->
     Proxmox_request py_str World httpx_send h self url method data w
     = (w, Err (Raise ValueError ("Unsupported HTTP method: " +:+ method)))).
Proof.
  unfold Proxmox_request. rewrite upper_idem. split.
  - intros Hin. unfold bind.
    destruct (String.eqb (upper method) "GET") eqn:E1; [done|].
    destruct (String.eqb (upper method) "POST") eqn:E2; [done|].
    destruct (String.eqb (upper method) "PUT") eqn:E3; [done|].
    destruct (String.eqb (upper method) "DELETE") eqn:E4; [done|].
    apply String.eqb_neq in E1, E2, E3, E4.
    apply list_elem_of_In in Hin. simpl in Hin.
    by destruct Hin as [?|[?|[?|[?|[]]]]].
  - intros Hout. unfold bind.
    assert (forall s, s ∈ ["GET"; "POST"; "PUT"; "DELETE"] ->
              String.eqb (upper method) s = false) as Hne.
    { intros s Hs. apply String.eqb_neq. intros Heq. by rewrite <- Heq in Hs. }
    rewrite (Hne "GET"), (Hne "POST"), (Hne "PUT"), (Hne "DELETE")
      by (apply list_elem_of_In; simpl; auto).
    done.
Qed.

Lemma Proxmox_needs_vm_id_no_config :
  let e := Raise Exception "VM ID not found in service configuration" in
  let service := {| id := 7; service_config := Returns (VDict []) |} in
  Proxmox_suspend str_scalar _ unreachable_node pve_heap pve_instance
    service [] = ([], Err e) /\
  Proxmox_unsuspend str_scalar _ unreachable_node pve_heap pve_instance
    service [] = ([], Err e) /\
  Proxmox_terminate str_scalar _ unreachable_node pve_heap pve_instance
    service [] = ([], Err e) /\
  Proxmox_get_login_url str_scalar pve_heap pve_instance service = Ok VNone.
Proof.
  apply (Proxmox_needs_vm_id str_scalar _ unreachable_node pve_heap
           pve_instance {| id := 7; service_config := Returns (VDict []) |}
           VNone []); reflexivity.
Defined.

(** Case analysis on the response to the one request a call sends. *)
Ltac response_cases :=
  match goal with
  | |- context [?send ?c ?x] =>
      lazymatch type of (send c x) with
      | (_ * result Response)%type =>
          let Hsend := fresh "Hsend" in
          destruct (send c x) as [? [?|?]] eqn:Hsend; [|done]
      end
  end;
  match goal with
  | Hsend : _ = (_, Ok ?resp) |- _ =>
      destruct (is_success resp) eqn:?; simpl;
      destruct (json resp) as [?|?] eqn:?; try done
  end;
  [ intros [= <- <-];
    match goal with
    | Hsend : ?send ?c _ = (_, Ok ?resp), Hj : json ?resp = Ok ?j |- _ =>
        exists c, resp, j; by split_and!
    end
  | repeat match goal with
    | |- context [value_get ?j ?k ?d] => destruct (value_get j k d)
    end; done ].

(** X11: [Proxmox.request] returns a value only for a response that
    reports success and whose body is JSON, and then returns that JSON, or
    an empty dict in place of a falsy one; the request went out with the
    method in upper case and with certificate verification off.  A
    response that does not report success never yields a value. *)
Theorem Proxmox_request_returns_success_only (py_str : value -> string)
    (World : Type) (httpx_send : HttpCall -> M World Response)
    h self url method data w w' v :
  Proxmox_request py_str World httpx_send h self url method data w
    = (w', Ok v) ->
  exists call response j,
    httpx_send call w = (w', Ok response) /\
    verb call = upper method /\ verify call = false /\
    is_success response = true /\
    json response = Ok j /\
    v = (if truthy j then j else VDict []).
Proof.
  unfold Proxmox_request, bind, lift, ret, raise.
  repeat match goal with
  | |- context [if String.eqb (upper method) ?m then _ else _] =>
      destruct (String.eqb (upper method) m)
  end; try done; response_cases.
Qed.

Lemma Proxmox_request_returns_success_only_delete :
  let out := Proxmox_request str_scalar _ stopped_vm_node pve_heap
               pve_instance "/nodes/pve/qemu/100" "delete" None [] in
  exists call response j,
    stopped_vm_node call [] = (out.1, Ok response) /\
    verb call = upper "delete" /\ verify call = false /\
    is_success response = true /\
    json response = Ok j /\
    VDict [("data", VStr "UPID:pve:destroy")]
    = (if truthy j then j else VDict []).
Proof.
  apply (Proxmox_request_returns_success_only str_scalar _ stopped_vm_node
           pve_heap pve_instance "/nodes/pve/qemu/100" "delete" None []).
  vm_compute. reflexivity.
Defined.

(** X12: with a VM id, [suspend] sends the stop request that [terminate]
    sends first, but does not swallow its failure: [suspend] raises what
    the stop request raises, and returns success with the answer of the
    request otherwise. *)
Theorem Proxmox_suspend_propagates_stop (py_str : value -> string)
    (World : Type) (httpx_send : HttpCall -> M World Response)
    h self service vmid w :
  service_vmid service = Ok vmid -> truthy vmid = true ->
  Proxmox_suspend py_str World httpx_send h self service w =
  match stop_call py_str World httpx_send h self vmid w with
  | (w1, Ok result) =>
      (w1, Ok (VDict [("success", VBool true);
                      ("message",
                       VStr ("VM " +:+ py_str vmid
                               +:+ " suspended successfully"));
                      ("data", result)]))
  | (w1, Err e) => (w1, Err e)
  end.
Proof.
  intros Hv Ht. unfold Proxmox_suspend, stop_call, bind, lift, ret.
  rewrite Hv, Ht. simpl.
  by destruct (Proxmox_request _ _ _ _ _ _ _ _ _) as [w1 [r|e]].
Qed.

Lemma Proxmox_suspend_propagates_stop_stopped_vm :
  Proxmox_suspend str_scalar _ stopped_vm_node pve_heap pve_instance vm100 []
  = match stop_call str_scalar _ stopped_vm_node pve_heap pve_instance
            (VInt 100) [] with
    | (w1, Ok result) =>
        (w1, Ok (VDict [("success", VBool true);
                        ("message",
                         VStr ("VM " +:+ str_scalar (VInt 100)
                                 +:+ " suspended successfully"));
                        ("data", result)]))
    | (w1, Err e) => (w1, Err e)
    end.
Proof.
  apply (Proxmox_suspend_propagates_stop str_scalar _ stopped_vm_node
           pve_heap pve_instance vm100 (VInt 100) []); reflexivity.
Defined.

(** [suspend] on the stopped VM fails where [terminate] succeeds. *)
Example Proxmox_suspend_stopped_vm_fails :
  (Proxmox_suspend str_scalar _ stopped_vm_node pve_heap pve_instance
     vm100 []).2
  = Err (Raise Exception "Proxmox API Error: VM 100 not running").
Proof. vm_compute. reflexivity. Qed.

(** X13: [create] asks the cluster for the next VM id first.  If that
    request fails, [create] fails with its exception and sends nothing
    else; when reading [service.service_config] raises, as it does on an
    object that has no such attribute, [create] raises that exception
    after the first request and before the request that would create the
    VM; and when [create] returns, the [vmid] it reports is the [data]
    entry of the answer to the first request. *)
Theorem Proxmox_create_uses_next_id (py_str : value -> string)
    (World : Type)
    (httpx_send : HttpCall -> M World Response) h self service w :
  let next_id :=
    Proxmox_request py_str World httpx_send h self "/cluster/nextid" "GET"
      None w in
  let create := Proxmox_create py_str World httpx_send h self service w in
  (forall e, next_id.2 = Err e -> create = (next_id.1, Err e)) /\
  (forall answer vmid c msg,
     next_id.2 = Ok answer -> value_get answer "data" VNone = Ok vmid ->
     service_config service = Raises c msg ->
     create = (next_id.1, Err (Raise c msg))) /\
  (forall w' r, create = (w', Ok r) ->
     exists answer vmid,
       next_id.2 = Ok answer /\
       value_get answer "data" VNone = Ok vmid /\
       value_get r "vmid" VNone = Ok vmid /\
       value_get r "success" VNone = Ok (VBool true)).
Proof.
  simpl. unfold Proxmox_create, bind, lift, ret.
  destruct (Proxmox_request py_str World httpx_send h self "/cluster/nextid"
              "GET" None w) as [w1 [answer|e1]] eqn:Hnext; simpl.
  2:{ split_and!;
      [by intros e [= <-] | by intros ? ? ? ? [=] | by intros ? ? [=]]. }
  split_and!; [by intros ? [=]| |].
  - intros answer' vmid c msg [= <-] Hdata Hraises.
    rewrite Hdata. unfold get_service_config. by rewrite Hraises.
  - intros w' r.
    destruct (value_get answer "data" VNone) as [vmid|] eqn:Hdata; [|done].
    destruct (get_service_config service) as [sc|]; [|done].
    destruct (value_get sc "cores" _) as [cores|]; [|done].
    destruct (value_get sc "memory" _) as [memory|]; [|done].
    clear Hnext.
    destruct (Proxmox_request _ _ _ _ _ _ _ _ _) as [w2 [result|e2]]; [|done].
    intros [= <- <-]. exists answer, vmid. split_and!; done.
Qed.

Example Proxmox_create_on_cluster :
  (Proxmox_create str_scalar _ cluster_node pve_heap pve_instance vm100 []).2
  = Ok (VDict [("success", VBool true);
               ("vmid", VInt 105);
               ("message", VStr "VM 105 created successfully");
               ("data", VDict [("data", VStr "UPID:pve:create")])]).
Proof. vm_compute. reflexivity. Qed.

Example Proxmox_create_unreachable :
  Proxmox_create str_scalar _ unreachable_node pve_heap pve_instance vm100 []
  = ((Proxmox_request str_scalar _ unreachable_node pve_heap pve_instance
        "/cluster/nextid" "GET" None []).1,
     Err (Raise TransportError "connection refused")).
Proof. vm_compute. reflexivity. Qed.

(** ** Stripe *)

(** X14: [Stripe.request] knows GET, POST and DELETE in any letter case;
    any other method, PUT included, raises [ValueError] naming it before
    anything is sent. *)
Theorem Stripe_request_method (py_str : value -> string) (World : Type)
    (httpx_send : HttpCall -> M World Response) h self url method data w :
  (upper method ∈ ["GET"; "POST"; "DELETE"] ->
     Stripe_request py_str World httpx_send h self url method data w
     = Stripe_request py_str World httpx_send h self url (upper method)
         data w) /\
  (upper method ∉ ["GET"; "POST"; "DELETE"] ->
     Stripe_request py_str World httpx_send h self url method data w
     = (w, Err (Raise ValueError ("Unsupported HTTP method: " +:+ method)))).
Proof.
  unfold Stripe_request. rewrite upper_idem. split.
  - intros Hin. unfold bind.
    destruct (String.eqb (upper method) "GET") eqn:E1; [done|].
    destruct (String.eqb (upper method) "POST") eqn:E2; [done|].
    destruct (String.eqb (upper method) "DELETE") eqn:E4; [done|].
    apply String.eqb_neq in E1, E2, E4.
    apply list_elem_of_In in Hin. simpl in Hin.
    by destruct Hin as [?|[?|[?|[]]]].
  - intros Hout. unfold bind.
    assert (forall s, s ∈ ["GET"; "POST"; "DELETE"] ->
              String.eqb (upper method) s = false) as Hne.
    { intros s Hs. apply String.eqb_neq. intros Heq. by rewrite <- Heq in Hs. }
    rewrite (Hne "GET"), (Hne "POST"), (Hne "DELETE")
      by (apply list_elem_of_In; simpl; auto).
    done.
Qed.

Example Stripe_request_put :
  Stripe_request str_scalar _ unreachable_node no_secret_heap stripe_instance
    "/refunds" "put" None []
  = ([], Err (Raise ValueError "Unsupported HTTP method: put")).
Proof. vm_compute. reflexivity. Qed.

(** X15: [Stripe.request] returns a value only for a response that reports
    success and whose body is JSON, and then that JSON, or an empty dict in
    place of a falsy one.  The request went to the given URL if it starts
    with "http" and to the API base followed by the given path otherwise,
    with certificate verification on and the configured secret key as
    bearer token. *)
Theorem Stripe_request_returns_success_only (py_str : value -> string)
    (World : Type) (httpx_send : HttpCall -> M World Response)
    h self target method data w w' v :
  Stripe_request py_str World httpx_send h self target method data w
    = (w', Ok v) ->
  exists call response j,
    httpx_send call w = (w', Ok response) /\
    verb call = upper method /\ verify call = true /\
    url call
    = (if String.prefix "http" target then target
       else "https://api.stripe.com/v1" +:+ target) /\
    dict_get (headers call) "Authorization"
    = Some ("Bearer " +:+ py_str (config h self "secret_key" VNone)) /\
    is_success response = true /\
    json response = Ok j /\
    v = (if truthy j then j else VDict []).
Proof.
  unfold Stripe_request, bind, lift, ret, raise.
  repeat match goal with
  | |- context [if String.eqb (upper method) ?m then _ else _] =>
      destruct (String.eqb (upper method) m)
  end; try done;
  destruct (String.prefix "http" target); simpl; response_cases.
Qed.

Lemma Stripe_request_returns_success_only_refunds :
  let out := Stripe_request str_scalar _ cluster_node no_secret_heap
               stripe_instance "/refunds" "post" None [] in
  exists call response j,
    cluster_node call [] = (out.1, Ok response) /\
    verb call = upper "post" /\ verify call = true /\
    url call
    = (if String.prefix "http" "/refunds" then "/refunds"
       else "https://api.stripe.com/v1" +:+ "/refunds") /\
    dict_get (headers call) "Authorization"
    = Some ("Bearer "
              +:+ str_scalar (config no_secret_heap stripe_instance
                                "secret_key" VNone)) /\
    is_success response = true /\
    json response = Ok j /\
    VDict [("data", VStr "UPID:pve:create")]
    = (if truthy j then j else VDict []).
Proof.
  apply (Stripe_request_returns_success_only str_scalar _ cluster_node
           no_secret_heap stripe_instance "/refunds" "post" None []).
  vm_compute. reflexivity.
Defined.

(** *** The signature header *)

Lemma split_no_separator sep s : contains sep s = false -> split sep s = [s].
Proof.
  induction s as [|c s IH]; simpl; [done|].
  intros H. apply orb_false_elim in H as [Hc Hs]. rewrite Hc.
  by rewrite (IH Hs).
Qed.

(** The pieces of a string that is free of a character are free of it. *)
Lemma split_pieces_free c sep s p :
  contains c s = false -> p ∈ split sep s -> contains c p = false.
Proof.
  revert p. induction s as [|a s IH]; simpl; intros p Hs Hp.
  - apply list_elem_of_singleton in Hp. by subst.
  - apply orb_false_elim in Hs as [Ha Hs].
    destruct (Ascii.eqb a sep).
    + apply elem_of_cons in Hp as [->|Hp]; [done|by apply IH].
    + destruct (split sep s) as [|q qs] eqn:E.
      * apply list_elem_of_singleton in Hp. subst. simpl. by rewrite Ha.
      * apply elem_of_cons in Hp as [->|Hp].
        -- simpl. rewrite Ha. simpl. apply IH; [done|]. left.
        -- apply IH; [done|]. by right.
Qed.

(** No piece contains the separator. *)
Lemma split_pieces_no_separator sep s p :
  p ∈ split sep s -> contains sep p = false.
Proof.
  revert p. induction s as [|a s IH]; simpl; intros p Hp.
  - apply list_elem_of_singleton in Hp. by subst.
  - destruct (Ascii.eqb a sep) eqn:Ha.
    + apply elem_of_cons in Hp as [->|Hp]; [done|by apply IH].
    + destruct (split sep s) as [|q qs] eqn:E.
      * apply list_elem_of_singleton in Hp. subst. simpl. by rewrite Ha.
      * apply elem_of_cons in Hp as [->|Hp].
        -- simpl. rewrite Ha. simpl. apply IH. left.
        -- apply IH. by right.
Qed.

Lemma dict_update_values (P : string -> Prop) pairs i acc d :
  Forall (fun kv => P kv.2) acc ->
  Forall (Forall P) pairs ->
  dict_update i pairs acc = Ok d ->
  Forall (fun kv => P kv.2) d.
Proof.
  intros Hacc Hpairs. revert i acc Hacc.
  induction Hpairs as [|element pairs Helement Hpairs IH]; simpl;
    intros i acc Hacc.
  - by intros [= <-].
  - destruct element as [|k [|v [|? ?]]]; try done.
    apply IH. apply dict_set_Forall; [done|].
    apply Forall_cons in Helement as [_ Hv].
    by apply Forall_cons in Hv as [Hv _].
Qed.

Lemma dict_of_pairs_values (P : string -> Prop) pairs acc d :
  Forall (fun kv => P kv.2) acc ->
  Forall (Forall P) pairs ->
  dict_of_pairs pairs acc = Ok d ->
  Forall (fun kv => P kv.2) d.
Proof. apply dict_update_values. Qed.

(** [dict(...)] stops at the first element that is not a pair, and names
    its position and its length. *)
Lemma dict_update_short pairs i acc element :
  element ∈ pairs -> length element <> 2%nat ->
  exists j bad,
    pairs !! j = Some bad /\ length bad <> 2%nat /\
    (forall k e, (k < j)%nat -> pairs !! k = Some e -> length e = 2%nat) /\
    dict_update i pairs acc = Err (wrong_length (i + j) (length bad)).
Proof.
  intros Hin Hlen. revert i acc.
  induction pairs as [|q pairs IH]; intros i acc.
  - by apply elem_of_nil in Hin.
  - destruct (decide (length q = 2%nat)) as [Hq|Hq].
    + apply elem_of_cons in Hin as [->|Hin]; [done|].
      destruct (IH Hin (S i) (match q with
                              | [k; v] => dict_set k v acc
                              | _ => acc
                              end)) as (j & bad & Hj & Hbad & Hfirst & Hrun).
      exists (S j), bad. split_and!; [done|done| |].
      * intros [|k] e Hk; simpl; [by intros [= <-]|].
        apply Hfirst. lia.
      * destruct q as [|k [|v [|? ?]]]; try done. simpl.
        by replace (i + S j)%nat with (S i + j)%nat by lia.
    + exists 0%nat, q. split_and!; [done|done|intros; lia|].
      rewrite Nat.add_0_r. by destruct q as [|k [|v [|? ?]]].
Qed.

(** X16: with a webhook secret configured, a request whose
    [Stripe-Signature] header has a comma-separated item without an
    equals sign makes [webhook] raise the [ValueError] of [dict(...)]
    before the body is decoded: the message names the position and the
    length of the first item that does not split into two at the equals
    signs.  A request without the header is parsed as the empty string,
    whose one item has length 1 at position 0. *)
Theorem Stripe_webhook_malformed_signature
    (hmac : string -> string -> string) (json_loads : string -> result value)
    (decode : string -> result string) h self request item :
  truthy (config h self "webhook_secret" VNone) = true ->
  item ∈ split ","
           (dict_get_default (request_headers request) "Stripe-Signature"
              ""%string) ->
  contains "=" item = false ->
  let elements :=
    map (split "=")
      (split ","
         (dict_get_default (request_headers request) "Stripe-Signature"
            ""%string)) in
  (exists i bad,
     elements !! i = Some bad /\ length bad <> 2%nat /\
     (forall k e, (k < i)%nat -> elements !! k = Some e ->
        length e = 2%nat) /\
     Stripe_webhook hmac json_loads decode h self request
     = Err (Raise ValueError
              ("dictionary update sequence element #" +:+ pretty i
                 +:+ " has length " +:+ pretty (length bad)
                 +:+ "; 2 is required"))) /\
  (dict_get (request_headers request) "Stripe-Signature" = None ->
   Stripe_webhook hmac json_loads decode h self request
   = Err (Raise ValueError
            "dictionary update sequence element #0 has length 1; 2 is required")).
Proof.
  intros Ht Hin Hfree elements. split.
  - destruct (dict_update_short elements 0 [] (split "=" item))
      as (i & bad & Hi & Hbad & Hfirst & Hrun).
    { apply list_elem_of_fmap. by exists item. }
    { by rewrite split_no_separator. }
    exists i, bad. split_and!; [done|done|done|].
    unfold Stripe_webhook. rewrite Ht.
    unfold verify_signature, and_then, dict_of_pairs.
    fold elements. by rewrite Hrun.
  - intros Hnone. unfold Stripe_webhook. rewrite Ht.
    unfold verify_signature, and_then, dict_get_default.
    by rewrite Hnone.
Qed.

Lemma Stripe_webhook_malformed_signature_forged :
  Stripe_webhook toy_hmac toy_json_loads toy_decode secret_heap
    stripe_instance forged_request
  = Err (Raise ValueError
           "dictionary update sequence element #0 has length 1; 2 is required") /\
  Stripe_webhook toy_hmac toy_json_loads toy_decode secret_heap
    stripe_instance garbled_request
  = Err (Raise ValueError
           "dictionary update sequence element #1 has length 1; 2 is required").
Proof.
  split.
  - destruct (Stripe_webhook_malformed_signature toy_hmac toy_json_loads
                toy_decode secret_heap stripe_instance forged_request
                ""%string) as [_ Hmissing].
    + reflexivity.
    + apply list_elem_of_In. simpl. auto.
    + reflexivity.
    + apply Hmissing. reflexivity.
  - destruct (Stripe_webhook_malformed_signature toy_hmac toy_json_loads
                toy_decode secret_heap stripe_instance garbled_request
                "v1"%string) as [(i & bad & Hi & Hbad & _ & ->) _].
    + reflexivity.
    + apply list_elem_of_In. simpl. auto.
    + reflexivity.
    + destruct i as [|[|i]]; simpl in Hi.
      * injection Hi as <-. by contradiction Hbad.
      * injection Hi as <-. reflexivity.
      * discriminate Hi.
Defined.

(** X17: with a webhook secret configured, [webhook] processes a request
    only if the [v1] value of the header is exactly the hex digest of
    timestamp, dot and body under the secret.  The header is split at the
    commas before the values are read, so the list the digest is looked up
    in has that one element, and of several [v1] items the last one is the
    one that counts. *)
Theorem Stripe_webhook_accepts_exact_digest
    (hmac : string -> string -> string) (json_loads : string -> result value)
    (decode : string -> result string) h self request r :
  truthy (config h self "webhook_secret" VNone) = true ->
  Stripe_webhook hmac json_loads decode h self request = Ok r ->
  exists key sig_parts decoded,
    config h self "webhook_secret" VNone = VStr key /\
    dict_of_pairs
      (map (split "=")
         (split ","
            (dict_get_default (request_headers request) "Stripe-Signature"
               ""%string))) [] = Ok sig_parts /\
    decode (body request) = Ok decoded /\
    dict_get_default sig_parts "v1" ""%string
    = hmac key (format_timestamp (dict_get sig_parts "t")
                  +:+ "." +:+ decoded).
Proof.
  intros Ht. unfold Stripe_webhook. rewrite Ht.
  unfold verify_signature, and_then.
  destruct (dict_of_pairs _ _) as [sig_parts|e1] eqn:Hparse; [|done].
  destruct (decode (body request)) as [decoded|e2]; [|done].
  destruct (encode_secret _) as [key|e3] eqn:Hkey; [|done].
  destruct (bool_decide _) eqn:Hin; simpl; [|done].
  intros _. exists key, sig_parts, decoded.
  apply bool_decide_eq_true in Hin.
  split_and!; try done.
  - destruct (config h self "webhook_secret" VNone); simpl in Hkey;
      try discriminate. congruence.
  - assert (Forall (fun kv => contains "," kv.2 = false) sig_parts) as Hfree.
    { eapply (dict_of_pairs_values (fun s => contains "," s = false));
        [constructor| |exact Hparse].
      apply Forall_forall. intros pair Hpair.
      apply list_elem_of_fmap in Hpair as (item & -> & Hitem).
      apply Forall_forall. intros piece Hpiece.
      eapply split_pieces_free; [|exact Hpiece].
      by eapply split_pieces_no_separator. }
    assert (contains "," (dict_get_default sig_parts "v1" ""%string) = false)
      as Hv1.
    { unfold dict_get_default.
      destruct (dict_get sig_parts "v1") as [v1|] eqn:E; [|done].
      by apply (dict_get_Forall (fun s => contains "," s = false)
                  sig_parts "v1"). }
    rewrite (split_no_separator _ _ Hv1) in Hin.
    apply list_elem_of_singleton in Hin. done.
Qed.

Lemma Stripe_webhook_accepts_exact_digest_signed :
  exists key sig_parts decoded,
    config secret_heap stripe_instance "webhook_secret" VNone = VStr key /\
    dict_of_pairs
      (map (split "=")
         (split ","
            (dict_get_default (request_headers signed_request)
               "Stripe-Signature" ""%string))) [] = Ok sig_parts /\
    toy_decode (body signed_request) = Ok decoded /\
    dict_get_default sig_parts "v1" ""%string
    = toy_hmac key (format_timestamp (dict_get sig_parts "t")
                      +:+ "." +:+ decoded).
Proof.
  apply (Stripe_webhook_accepts_exact_digest toy_hmac toy_json_loads
           toy_decode secret_heap stripe_instance signed_request
           (VDict [("success", VBool true);
                   ("event", VStr "checkout.session.completed");
                   ("invoice_id", VNone); ("status", VStr "paid")]));
    vm_compute; reflexivity.
Defined.

(** A second [v1] item replaces the first: the valid digest followed by
    another one is refused. *)
Example Stripe_webhook_last_v1_counts :
  Stripe_webhook toy_hmac toy_json_loads toy_decode secret_heap
    stripe_instance
    {| request_headers :=
         [("Stripe-Signature",
           "t=1700000000,v1="
             +:+ toy_hmac "whsec" ("1700000000." +:+ checkout_event)
             +:+ ",v1=00")];
       body := checkout_event |}
  = Err (Raise Exception "Invalid webhook signature").
Proof. vm_compute. reflexivity. Qed.

(** X18: the event processing of [webhook] returns a result only when
    the body parses to a JSON object; the result then says success, names
    the event type found under [type] ([None] if there is none), and its
    status is "paid" for [checkout.session.completed] and "processed" for
    every other type. *)
Theorem process_event_result (json_loads : string -> result value)
    request r :
  process_event json_loads request = Ok r ->
  exists event,
    json_loads (body request) = Ok (VDict event) /\
    let event_type := dict_get_default event "type" VNone in
    value_get r "success" VNone = Ok (VBool true) /\
    value_get r "event" VNone = Ok event_type /\
    value_get r "status" VNone
    = Ok (VStr (if is_str event_type "checkout.session.completed"
                then "paid" else "processed")).
Proof.
  unfold process_event, and_then.
  destruct (json_loads (body request)) as [event|e]; [|done].
  destruct event as [| | | | |event]; try done. simpl.
  destruct (is_str (dict_get_default event "type" VNone) _) eqn:Hty.
  - destruct (value_get (dict_get_default event "data" _) _ _)
      as [session|]; [|done].
    destruct (value_get session "metadata" _) as [metadata|]; [|done].
    destruct (value_get metadata "invoice_id" _) as [invoice_id|]; [|done].
    intros [= <-]. exists event. split; [done|]. cbv zeta. rewrite Hty.
    split_and!; reflexivity.
  - intros [= <-]. exists event. split; [done|]. cbv zeta. rewrite Hty.
    split_and!; reflexivity.
Qed.

Lemma process_event_result_checkout :
  exists event,
    toy_json_loads (body signed_request) = Ok (VDict event) /\
    let event_type := dict_get_default event "type" VNone in
    value_get (VDict [("success", VBool true);
                      ("event", VStr "checkout.session.completed");
                      ("invoice_id", VNone); ("status", VStr "paid")])
      "success" VNone = Ok (VBool true) /\
    value_get (VDict [("success", VBool true);
                      ("event", VStr "checkout.session.completed");
                      ("invoice_id", VNone); ("status", VStr "paid")])
      "event" VNone = Ok event_type /\
    value_get (VDict [("success", VBool true);
                      ("event", VStr "checkout.session.completed");
                      ("invoice_id", VNone); ("status", VStr "paid")])
      "status" VNone
    = Ok (VStr (if is_str event_type "checkout.session.completed"
                then "paid" else "processed")).
Proof.
  apply (process_event_result toy_json_loads signed_request).
  vm_compute. reflexivity.
Defined.

(** ** DiscordNotifications *)

Lemma eq_str_true v s : eq_str v s = true -> v = VStr s.
Proof.
  destruct v; simpl; try done. intros H. apply String.eqb_eq in H. by subst.
Qed.

Section DiscordFacts.
Variable py_str : value -> string.
Variable py_title : string -> string.
Variable World : Type.
Variable httpx_send : HttpCall -> M World Response.

Let execute := Discord_execute py_str py_title World httpx_send.
Let build_embed := Discord__build_embed py_str py_title.

(** X19: [execute] sends nothing when the event's notify flag is
    configured falsy (the answer is success, "disabled"), when the event
    is none of [new_user], [new_order], [payment], [ticket] (success, "No
    notification sent"), or when no webhook URL is configured (then a known
    event with a flag that is on raises "Webhook URL not configured"). *)
Theorem Discord_execute_sends_nothing h self kwargs w :
  let event := dict_get_default kwargs "event" VNone in
  let data := dict_get_default kwargs "data" (VDict []) in
  let flag := config h self ("notify_" +:+ py_str event) (VBool true) in
  (truthy flag = false ->
     execute h self kwargs w
     = (w, Ok (VDict [("success", VBool true);
                      ("message",
                       VStr "Notification disabled for this event type")])))
  /\
  (truthy flag = true ->
   eq_str event "new_user" = false -> eq_str event "new_order" = false ->
   eq_str event "payment" = false -> eq_str event "ticket" = false ->
     execute h self kwargs w
     = (w, Ok (VDict [("success", VBool true);
                      ("message", VStr "No notification sent")]))) /\
  (truthy (config h self "webhook_url" VNone) = false ->
     (execute h self kwargs w).1 = w /\
     forall embed,
       truthy flag = true -> build_embed event data = Ok embed ->
       truthy embed = true ->
       execute h self kwargs w
       = (w, Err (Raise Exception "Webhook URL not configured"))).
Proof.
  subst execute build_embed. simpl. unfold Discord_execute. split_and!.
  - intros Hf. by rewrite Hf.
  - intros Hf H1 H2 H3 H4. rewrite Hf. simpl.
    unfold bind, lift, Discord__build_embed. by rewrite H1, H2, H3, H4.
  - intros Hurl. split.
    + destruct (truthy (config h self _ (VBool true))); simpl; [|done].
      unfold bind, lift.
      destruct (Discord__build_embed _ _ _ _) as [embed|e]; [|done].
      destruct (truthy embed); [|done].
      unfold Discord_send_webhook. by rewrite Hurl.
    + intros embed Hf Hembed Ht. rewrite Hf. simpl. unfold bind, lift.
      rewrite Hembed, Ht. unfold Discord_send_webhook. by rewrite Hurl.
Qed.
End DiscordFacts.

(** X20: for an event whose flag is on and for which an embed is built,
    with a webhook URL configured as a non-empty string, [execute] sends
    exactly one request: a POST to that URL whose JSON body holds the
    configured username (default "Paymenter"), the avatar URL if one is
    configured, and the one embed, and no [content].  It returns success
    if the response reports success, raises "Discord webhook error: "
    followed by the response text if not, and raises what sending
    raised. *)
Theorem Discord_execute_posts_embed (py_str : value -> string)
    (py_title : string -> string) (World : Type)
    (httpx_send : HttpCall -> M World Response) h self kwargs w embed u :
  let event := dict_get_default kwargs "event" VNone in
  let data := dict_get_default kwargs "data" (VDict []) in
  truthy (config h self ("notify_" +:+ py_str event) (VBool true)) = true ->
  Discord__build_embed py_str py_title event data = Ok embed ->
  truthy embed = true ->
  config h self "webhook_url" VNone = VStr u -> u <> ""%string ->
  let avatar := config h self "avatar_url" VNone in
  let call :=
    {| verify := true; verb := "POST"; url := u; headers := [];
       payload :=
         JsonBody
           (VDict ([("username", config h self "username" (VStr "Paymenter"))]
                   ++ (if truthy avatar then [("avatar_url", avatar)] else [])
                   ++ [("embeds", VList [embed])])) |} in
  Discord_execute py_str py_title World httpx_send h self kwargs w =
  match httpx_send call w with
  | (w1, Ok response) =>
      if is_success response
      then (w1, Ok (VDict [("success", VBool true);
                           ("message",
                            VStr "Notification sent successfully")]))
      else (w1, Err (Raise Exception
                       ("Discord webhook error: " +:+ text response)))
  | (w1, Err e) => (w1, Err e)
  end.
Proof.
  simpl. intros Hf Hembed Ht Hurl Hu.
  unfold Discord_execute. rewrite Hf. simpl. unfold bind at 1, lift.
  rewrite Hembed, Ht. unfold Discord_send_webhook. rewrite Hurl. simpl.
  apply String.eqb_neq in Hu. rewrite Hu. simpl.
  unfold bind, ret, raise.
  destruct (truthy (config h self "avatar_url" VNone)); simpl;
    destruct (httpx_send _ w) as [w1 [response|e]]; try done;
    by destruct (is_success response).
Qed.

Lemma Discord_execute_posts_embed_new_user :
  exists embed,
    Discord__build_embed str_scalar title_word (VStr "new_user")
      (dict_get_default new_user_event "data" (VDict [])) = Ok embed /\
    Discord_execute str_scalar title_word _ cluster_node discord_heap
      discord_instance new_user_event []
    = match cluster_node
              {| verify := true; verb := "POST";
                 url := "https://discord.example/api/webhooks/1";
                 headers := [];
                 payload :=
                   JsonBody
                     (VDict [("username", VStr "Paymenter");
                             ("embeds", VList [embed])]) |} [] with
      | (w1, Ok response) =>
          if is_success response
          then (w1, Ok (VDict [("success", VBool true);
                               ("message",
                                VStr "Notification sent successfully")]))
          else (w1, Err (Raise Exception
                           ("Discord webhook error: " +:+ text response)))
      | (w1, Err e) => (w1, Err e)
      end.
Proof.
  eexists. split; [reflexivity|].
  apply (Discord_execute_posts_embed str_scalar title_word _ cluster_node
           discord_heap discord_instance new_user_event []);
    try reflexivity.
  discriminate.
Defined.

(** X21: every event for which [_build_embed] builds an embed is switched
    by a flag that the configuration schema declares: the key [execute]
    looks up, "notify_" followed by the event, is the name of a boolean
    field of [get_config] whose default is [True], the default [execute]
    assumes when the key is not configured. *)
Theorem Discord_flags_declared (py_str : value -> string)
    (py_title : string -> string) event data embed h a :
  (forall s, py_str (VStr s) = s) ->
  Discord__build_embed py_str py_title event data = Ok embed ->
  truthy embed = true ->
  exists fields f,
    DiscordNotifications.get_config h a None = Ok (VList fields) /\
    f ∈ fields /\
    value_get f "name" VNone = Ok (VStr ("notify_" +:+ py_str event)) /\
    value_get f "type" VNone = Ok (VStr "boolean") /\
    value_get f "default" VNone = Ok (VBool true).
Proof.
  intros Hstr. unfold Discord__build_embed.
  destruct (eq_str event "new_user") eqn:E1.
  { apply eq_str_true in E1 as ->. intros _ _. rewrite Hstr.
    eexists _, _. split; [reflexivity|]. split.
    { apply list_elem_of_In. do 3 right. left. reflexivity. }
    split_and!; reflexivity. }
  destruct (eq_str event "new_order") eqn:E2.
  { apply eq_str_true in E2 as ->. intros _ _. rewrite Hstr.
    eexists _, _. split; [reflexivity|]. split.
    { apply list_elem_of_In. do 4 right. left. reflexivity. }
    split_and!; reflexivity. }
  destruct (eq_str event "payment") eqn:E3.
  { apply eq_str_true in E3 as ->. intros _ _. rewrite Hstr.
    eexists _, _. split; [reflexivity|]. split.
    { apply list_elem_of_In. do 5 right. left. reflexivity. }
    split_and!; reflexivity. }
  destruct (eq_str event "ticket") eqn:E4.
  { apply eq_str_true in E4 as ->. intros _ _. rewrite Hstr.
    eexists _, _. split; [reflexivity|]. split.
    { apply list_elem_of_In. do 6 right. left. reflexivity. }
    split_and!; reflexivity. }
  by intros [= <-].
Qed.

Lemma Discord_flags_declared_new_user :
  exists fields f,
    DiscordNotifications.get_config discord_heap 0%nat None
      = Ok (VList fields) /\
    f ∈ fields /\
    value_get f "name" VNone
      = Ok (VStr ("notify_" +:+ str_scalar (VStr "new_user"))) /\
    value_get f "type" VNone = Ok (VStr "boolean") /\
    value_get f "default" VNone = Ok (VBool true).
Proof.
  eapply (Discord_flags_declared str_scalar title_word (VStr "new_user")
            (dict_get_default new_user_event "data" (VDict []))).
  - reflexivity.
  - reflexivity.
  - reflexivity.
Defined.

(** ** The further properties at concrete inputs *)

Lemma Proxmox_request_method_patch :
  Proxmox_request str_scalar _ unreachable_node pve_heap pve_instance
    "/nodes" "patch" None []
  = ([], Err (Raise ValueError ("Unsupported HTTP method: " +:+ "patch"))).
Proof.
  apply (Proxmox_request_method str_scalar _ unreachable_node pve_heap
           pve_instance "/nodes" "patch" None []).
  intros Hin. apply list_elem_of_In in Hin. simpl in Hin.
  by destruct Hin as [|[|[|[|[]]]]].
Defined.

Lemma Stripe_request_method_put :
  Stripe_request str_scalar _ unreachable_node no_secret_heap stripe_instance
    "/refunds" "PUT" None []
  = ([], Err (Raise ValueError ("Unsupported HTTP method: " +:+ "PUT"))).
Proof.
  apply (Stripe_request_method str_scalar _ unreachable_node no_secret_heap
           stripe_instance "/refunds" "PUT" None []).
  intros Hin. apply list_elem_of_In in Hin. simpl in Hin.
  by destruct Hin as [|[|[|[]]]].
Defined.

Lemma Proxmox_create_uses_next_id_cluster :
  (exists answer vmid,
     (Proxmox_request str_scalar _ cluster_node pve_heap pve_instance
        "/cluster/nextid" "GET" None []).2 = Ok answer /\
     value_get answer "data" VNone = Ok vmid /\
     value_get (VDict [("success", VBool true);
                       ("vmid", VInt 105);
                       ("message", VStr "VM 105 created successfully");
                       ("data", VDict [("data", VStr "UPID:pve:create")])])
       "vmid" VNone = Ok vmid /\
     value_get (VDict [("success", VBool true);
                       ("vmid", VInt 105);
                       ("message", VStr "VM 105 created successfully");
                       ("data", VDict [("data", VStr "UPID:pve:create")])])
       "success" VNone = Ok (VBool true)) /\
  Proxmox_create str_scalar _ cluster_node pve_heap pve_instance
    bare_service []
  = ((Proxmox_request str_scalar _ cluster_node pve_heap pve_instance
        "/cluster/nextid" "GET" None []).1,
     Err (Raise AttributeError
            "'Service' object has no attribute 'service_config'")).
Proof.
  split.
  - destruct (Proxmox_create_uses_next_id str_scalar _ cluster_node pve_heap
                pve_instance vm100 []) as (_ & _ & Hreturns).
    apply (Hreturns
             (Proxmox_create str_scalar _ cluster_node pve_heap pve_instance
                vm100 []).1).
    vm_compute. reflexivity.
  - destruct (Proxmox_create_uses_next_id str_scalar _ cluster_node pve_heap
                pve_instance bare_service []) as (_ & Hraises & _).
    apply (Hraises (VDict [("data", VInt 105)]) (VInt 105));
      vm_compute; reflexivity.
Defined.

Lemma Discord_execute_sends_nothing_unknown_event :
  Discord_execute str_scalar title_word _ unreachable_node discord_heap
    discord_instance [("event", VStr "invoice_overdue")] []
  = ([], Ok (VDict [("success", VBool true);
                    ("message", VStr "No notification sent")])).
Proof.
  destruct (Discord_execute_sends_nothing str_scalar title_word _
              unreachable_node discord_heap discord_instance
              [("event", VStr "invoice_overdue")] []) as (_ & Hunknown & _).
  apply Hunknown; reflexivity.
Defined.
